(** * BoardApprovalsPanel: the approval queue of a board

    A shallow embedding of the two revisions of the React component
    [BoardApprovalsPanel]:

    - [Panel] follows the revision with the injection surface
      ([approvals], [isLoading], [error], [onRefresh], [onDecision]), the
      helpers [humanizeAction], [payloadValue], [approvalSummary], and a
      [sortedApprovals] that returns the two partitions separately;
    - [SimplePanel] follows the revision that owns all of its state, shows
      [action_type] with its underscores replaced, and renders one flat list.

    Strings are byte strings: a JavaScript string is modelled by its UTF-8
    encoding, so the separator of [humanizeAction] (U+00B7) takes two bytes.
    The character classes the code uses ([\w], [\b], [_], [.]) are ASCII
    only, so they read the same on bytes as on UTF-16 code units. *)

From stdpp Require Import base option list strings pretty gmap fin_maps.
From Stdlib Require Import ZArith Ascii String Sorted Permutation Lia.

Local Open Scope string_scope.
Local Open Scope Z_scope.

#[local] Set Warnings "-register-all".

(** ** String primitives of the host language *)

Module JsString.

(** [\w] of a regular expression without the unicode flag: [[A-Za-z0-9_]]. *)
Definition is_word_char (c : ascii) : bool :=
  let n := nat_of_ascii c in
  ((97 <=? n) && (n <=? 122) || (65 <=? n) && (n <=? 90)
   || (48 <=? n) && (n <=? 57) || (n =? 95))%nat.

(** [char.toUpperCase()] on a single character matched by [\w]. *)
Definition toUpperCase_char (c : ascii) : ascii :=
  let n := nat_of_ascii c in
  if ((97 <=? n) && (n <=? 122))%nat then ascii_of_nat (n - 32) else c.

(** [s.split(sep)] for a one-character separator: never the empty list. *)
Fixpoint split (sep : ascii) (s : string) : list string :=
  match s with
  | EmptyString => [EmptyString]
  | String c rest =>
      if Ascii.eqb c sep then EmptyString :: split sep rest
      else match split sep rest with
           | [] => [String c EmptyString]
           | part :: parts => String c part :: parts
           end
  end.

(** [parts.join(sep)]. *)
Fixpoint join (sep : string) (parts : list string) : string :=
  match parts with
  | [] => EmptyString
  | [part] => part
  | part :: rest => part +:+ sep +:+ join sep rest
  end.

(** [s.replace(/_/g, " ")]. *)
Fixpoint replace_underscores (s : string) : string :=
  match s with
  | EmptyString => EmptyString
  | String c rest =>
      String (if Ascii.eqb c "_" then " "%char else c) (replace_underscores rest)
  end.

(** [s.replace(/\b\w/g, (char) => char.toUpperCase())]: a match is a word
    character whose left neighbour in the subject string is not one (or
    that starts the string). [prev_word] tells whether the character
    before the current position is a word character. *)
Fixpoint capitalize_from (prev_word : bool) (s : string) : string :=
  match s with
  | EmptyString => EmptyString
  | String c rest =>
      String (if is_word_char c && negb prev_word then toUpperCase_char c else c)
             (capitalize_from (is_word_char c) rest)
  end.

Definition capitalize_words (s : string) : string := capitalize_from false s.

(** [s.startsWith(p)]. *)
Fixpoint startsWith (p s : string) : bool :=
  match p, s with
  | EmptyString, _ => true
  | String a p', String b s' => Ascii.eqb a b && startsWith p' s'
  | String _ _, EmptyString => false
  end.

(** [s.includes(needle)]. *)
Fixpoint includes (needle s : string) : bool :=
  startsWith needle s
  || match s with
     | EmptyString => false
     | String _ rest => includes needle rest
     end.

(** Truthiness of a string: only the empty string is falsy. *)
Definition truthy (s : string) : bool :=
  match s with EmptyString => false | String _ _ => true end.

End JsString.

(** The separator [" · "]: a space, U+00B7 in UTF-8 (bytes 194, 183), a space. *)
Definition middle_dot_separator : string :=
  String " " (String (ascii_of_nat 194) (String (ascii_of_nat 183) (String " " EmptyString))).

(** ** The platform

    What the component takes from its surroundings and the source does not
    define: the number type of the host language with its [String(n)]
    rendering, the date parser behind [new Date(s).getTime()], and the base
    URL returned by [getApiBaseUrl()]. A time value is an integral number of
    milliseconds or [NaN]; [None] stands for [NaN]. *)

Class Platform := {
  number : Type;
  Number_toString : number -> string;
  Date_getTime : string -> option Z;
  apiBase : string;
}.

(** ** Data model *)

Section Data.
Context `{Platform}.

(** A value as [JSON.parse] produces it, and [undefined] for a property
    that is not there. *)
Inductive JsValue : Type :=
| JUndefined
| JNull
| JBool (b : bool)
| JNum (n : number)
| JStr (s : string)
| JArr (items : list JsValue)
| JObj (fields : list (string * JsValue)).

(** [typeof value]. *)
Definition typeof (value : JsValue) : string :=
  match value with
  | JUndefined => "undefined"
  | JNull => "object"
  | JBool _ => "boolean"
  | JNum _ => "number"
  | JStr _ => "string"
  | JArr _ => "object"
  | JObj _ => "object"
  end.

(** [String(value)]. An array renders its elements separated by commas,
    [null] and [undefined] elements as nothing. *)
Fixpoint String_ (value : JsValue) : string :=
  match value with
  | JUndefined => "undefined"
  | JNull => "null"
  | JBool b => if b then "true" else "false"
  | JNum n => Number_toString n
  | JStr s => s
  | JArr items =>
      JsString.join ","
        (List.map (fun item =>
                     match item with
                     | JUndefined | JNull => EmptyString
                     | _ => String_ item
                     end) items)
  | JObj _ => "[object Object]"
  end.

(** [type Approval]. An optional field that is [undefined] or [null] is
    [None]. *)
Record Approval : Type := {
  id : string;
  action_type : string;
  payload : option (gmap string JsValue);
  confidence : number;
  rubric_scores : option (gmap string number);
  status : string;
  created_at : string;
  resolved_at : option string;
}.

End Data.

(** ** [Array.prototype.sort]

    [sort] calls [comparefn] through [SortCompare], which reads a [NaN]
    result as [+0]. The language fixes the result only in part. The sorted
    array always holds the elements of the array, each as often as before.
    When [comparefn] is a consistent comparator on them, here: when the
    creation time of every record parses, so that no comparison is [NaN],
    the result is the one stable sorted arrangement, whatever algorithm the
    engine runs. When a comparison is [NaN] the order is left to the engine.

    The model is the stable insertion sort: an element is placed in front of
    the first element of the sorted rest that it does not have to follow. It
    stands for the engine as a rearrangement on every input, and for the
    order of the result where every comparison is a number; the order it
    gives to a list with a creation time that does not parse is one of the
    orders an engine may give, not the one a given engine does give. The
    properties of the order below are therefore stated for lists whose
    creation times all parse. *)

Module JsArray.
Section Sort.
Context {A : Type} (comparefn : A -> A -> option Z).

Definition SortCompare (x y : A) : Z := default 0 (comparefn x y).

Fixpoint insert (x : A) (sorted : list A) : list A :=
  match sorted with
  | [] => [x]
  | y :: rest =>
      if SortCompare x y <=? 0 then x :: y :: rest
      else y :: insert x rest
  end.

Definition sort (items : list A) : list A := foldr insert [] items.
End Sort.
End JsArray.

(** [bTime - aTime] on time values: [NaN] as soon as one operand is. The
    difference of two time values can exceed 2^53, where it is rounded, but
    rounding keeps its sign, which is all [sort] reads. *)
Definition time_sub (x y : option Z) : option Z :=
  match x, y with
  | Some a, Some b => Some (a - b)
  | _, _ => None
  end.

(** ** Effects

    One call of [loadApprovals] or [handleDecision] runs against a machine:
    the four [useState] cells of the component and the trace of what the call
    did to the outside (requests sent, handlers of the host called). What the
    outside answers is an input of the call: [getToken], [fetch] and
    [res.json()] either return or throw, and so does a handler of the host.
    A call is run to its end; the interleaving of overlapping calls is not
    modelled. *)

(** What a [catch] clause receives: an [Error] with its message, or any
    other value. *)
Inductive thrown : Type :=
| ThrownError (message : string)
| ThrownOther.

Inductive outcome (A : Type) : Type :=
| Returned (a : A)
| Threw (e : thrown).
Arguments Returned {A} a.
Arguments Threw {A} e.

(** The [status] argument of [handleDecision]. *)
Inductive Decision : Type := approved | rejected.

(** A request as [fetch] receives it: the URL, the [Authorization] header
    and, for [PATCH], the status that [JSON.stringify({ status })] encodes. *)
Inductive Request : Type :=
| GET (url : string) (authorization : string)
| PATCH (url : string) (authorization : string) (body_status : Decision).

(** A response: [res.ok] and what [await res.json()] gives. *)
Record Response (B : Type) : Type := {
  ok : bool;
  json : outcome B;
}.
Arguments ok {B} r.
Arguments json {B} r.

(** [useAuth()]: the session flag and what [await getToken()] gives. *)
Record Auth : Type := {
  isSignedIn : bool;
  getToken : outcome (option string);
}.

Inductive Event : Type :=
| NetworkRequest (r : Request)
| Delegated (approvalId : string) (decision : Decision).

Section Effects.
Context `{Platform}.

Record PanelState : Type := {
  internalApprovals : list Approval;
  isLoading : bool;
  error : option string;
  updatingId : option string;
}.

Record Machine : Type := {
  panel : PanelState;
  trace : list Event;
}.

Definition M (A : Type) : Type := Machine -> outcome A * Machine.

Definition ret {A} (a : A) : M A := fun m => (Returned a, m).

Definition bind {A B} (c : M A) (k : A -> M B) : M B :=
  fun m =>
    match c m with
    | (Returned a, m') => k a m'
    | (Threw e, m') => (Threw e, m')
    end.

Definition throw {A} (e : thrown) : M A := fun m => (Threw e, m).

(** [await] of something the outside decides. *)
Definition await {A} (o : outcome A) : M A := fun m => (o, m).

(** [try { body } catch (err) { handler } finally { final }]. *)
Definition try_catch_finally (body : M unit) (handler : thrown -> M unit)
    (final : M unit) : M unit :=
  fun m =>
    let (r, m1) := body m in
    let (r', m2) := match r with
                    | Returned _ => (r, m1)
                    | Threw e => handler e m1
                    end in
    match final m2 with
    | (Returned _, m3) => (r', m3)
    | (Threw e, m3) => (Threw e, m3)
    end.

Definition modify (f : PanelState -> PanelState) : M unit :=
  fun m => (Returned tt, {| panel := f (panel m); trace := trace m |}).

Definition emit (e : Event) : M unit :=
  fun m => (Returned tt, {| panel := panel m; trace := trace m ++ [e] |}).

(** The setters of the four state cells. [setInternalApprovals] takes an
    updater, as the functional form of a React setter does. *)
Definition setInternalApprovals (f : list Approval -> list Approval) : M unit :=
  modify (fun s => {| internalApprovals := f (internalApprovals s);
                      isLoading := isLoading s;
                      error := error s;
                      updatingId := updatingId s |}).

Definition setIsLoading (b : bool) : M unit :=
  modify (fun s => {| internalApprovals := internalApprovals s;
                      isLoading := b;
                      error := error s;
                      updatingId := updatingId s |}).

Definition setError (e : option string) : M unit :=
  modify (fun s => {| internalApprovals := internalApprovals s;
                      isLoading := isLoading s;
                      error := e;
                      updatingId := updatingId s |}).

Definition setUpdatingId (u : option string) : M unit :=
  modify (fun s => {| internalApprovals := internalApprovals s;
                      isLoading := isLoading s;
                      error := error s;
                      updatingId := u |}).

(** [await fetch(...)]: the request goes on the trace, the outside answers. *)
Definition perform_fetch {B} (fetch : Request -> outcome (Response B))
    (r : Request) : M (Response B) :=
  bind (emit (NetworkRequest r)) (fun _ => await (fetch r)).

(** The header value [token ? `Bearer ${token}` : ""]. *)
Definition authorization_header (token : option string) : string :=
  match token with
  | Some t => if JsString.truthy t then "Bearer " +:+ t else ""
  | None => ""
  end.

(** [err instanceof Error ? err.message : fallback]. *)
Definition error_message (err : thrown) (fallback : string) : string :=
  match err with
  | ThrownError message => message
  | ThrownOther => fallback
  end.

(** The requests among the events of a trace. *)
Definition network_requests (t : list Event) : list Request :=
  omap (fun e => match e with NetworkRequest r => Some r | Delegated _ _ => None end) t.

End Effects.

Declare Scope panel_scope.
Delimit Scope panel_scope with panel.
Notation "'let*' x := c 'in' k" := (bind c (fun x => k))
  (at level 10, x name, c at level 200, k at level 200, only parsing) : panel_scope.
Notation "c ;;; k" := (bind c (fun _ => k))
  (at level 100, k at level 200, only parsing, right associativity) : panel_scope.

Local Open Scope panel_scope.

(** ** The revision with the injection surface *)

Module Panel.
Section WithPlatform.
Context `{Platform}.

(** [BoardApprovalsPanelProps]. A handler of the host is what a call to
    it does: return or throw. *)
Record Props : Type := {
  boardId : string;
  externalApprovals : option (list Approval);
  externalLoading : option bool;
  externalError : option string;
  onRefresh : option (outcome unit);
  onDecision : option (string -> Decision -> outcome unit);
}.

Definition humanizeAction (value : string) : string :=
  JsString.join middle_dot_separator
    (List.map
       (fun part => JsString.capitalize_words (JsString.replace_underscores part))
       (JsString.split "." value)).

(** [payload[key]] on a parsed JSON object is the own property or, for the
    few names that [Object.prototype] defines, a function or an object;
    [typeof] is then neither ["string"] nor ["number"], as for the
    [undefined] of a missing key. *)
Definition payloadValue (payload : option (gmap string JsValue)) (key : string)
    : option string :=
  match payload with
  | None => None
  | Some fields =>
      let value := default JUndefined (fields !! key) in
      if String.eqb (typeof value) "string" || String.eqb (typeof value) "number"
      then Some (String_ value)
      else None
  end.

(** [x ?? y]. *)
Definition nullish_or {A} (x y : option A) : option A :=
  match x with
  | Some v => Some v
  | None => y
  end.

(** [if (x) ...] on a [string | null]. *)
Definition truthy_opt (x : option string) : bool :=
  match x with
  | Some s => JsString.truthy s
  | None => false
  end.

Record Row : Type := { label : string; value : string }.

Record Summary : Type := {
  taskId : option string;
  reason : option string;
  rows : list Row;
}.

Definition approvalSummary (approval : Approval) : Summary :=
  let payload := Some (default ∅ (payload approval)) in
  let taskId :=
    nullish_or (payloadValue payload "task_id")
      (nullish_or (payloadValue payload "taskId")
         (payloadValue payload "taskID")) in
  let assignedAgentId :=
    nullish_or (payloadValue payload "assigned_agent_id")
      (payloadValue payload "assignedAgentId") in
  let reason := payloadValue payload "reason" in
  let title := payloadValue payload "title" in
  let role := payloadValue payload "role" in
  let isAssign := JsString.includes "assign" (action_type approval) in
  let rows : list Row := [] in
  let rows :=
    if truthy_opt taskId
    then (rows ++ [{| label := "Task"; value := default "" taskId |}])%list else rows in
  let rows :=
    if isAssign
    then (rows ++ [{| label := "Assignee";
                      value := default "Unassigned" assignedAgentId |}])%list
    else rows in
  let rows :=
    if truthy_opt title
    then (rows ++ [{| label := "Title"; value := default "" title |}])%list else rows in
  let rows :=
    if truthy_opt role
    then (rows ++ [{| label := "Role"; value := default "" role |}])%list else rows in
  {| taskId := taskId; reason := reason; rows := rows |}.

Definition usingExternal (props : Props) : bool :=
  match externalApprovals props with Some _ => true | None => false end.

Definition approvals (props : Props) (s : PanelState) : list Approval :=
  match externalApprovals props with
  | Some external => external
  | None => internalApprovals s
  end.

Definition loadingState (props : Props) (s : PanelState) : bool :=
  if usingExternal props then default false (externalLoading props)
  else isLoading s.

Definition errorState (props : Props) (s : PanelState) : option string :=
  if usingExternal props then externalError props else error s.

Definition approvals_url (props : Props) : string :=
  apiBase +:+ "/api/v1/boards/" +:+ boardId props +:+ "/approvals".

Definition loadApprovals (props : Props) (auth : Auth)
    (fetch : Request -> outcome (Response (list Approval))) : M unit :=
  if usingExternal props then ret tt
  else if negb (isSignedIn auth) || negb (JsString.truthy (boardId props))
  then ret tt
  else
    setIsLoading true ;;;
    setError None ;;;
    try_catch_finally
      (let* token := await (getToken auth) in
       let* res := perform_fetch fetch
                (GET (approvals_url props) (authorization_header token)) in
       if negb (ok res) then throw (ThrownError "Unable to load approvals.")
       else
         let* data := await (json res) in
         setInternalApprovals (fun _ => data))
      (fun err => setError (Some (error_message err "Unable to load approvals.")))
      (setIsLoading false).

Definition handleDecision (props : Props) (auth : Auth)
    (fetch : Request -> outcome (Response Approval))
    (approvalId : string) (status : Decision) : M unit :=
  match onDecision props with
  | Some handler =>
      emit (Delegated approvalId status) ;;;
      await (handler approvalId status)
  | None =>
      if usingExternal props then ret tt
      else if negb (isSignedIn auth) || negb (JsString.truthy (boardId props))
      then ret tt
      else
        setUpdatingId (Some approvalId) ;;;
        setError None ;;;
        try_catch_finally
          (let* token := await (getToken auth) in
           let* res := perform_fetch fetch
                    (PATCH (approvals_url props +:+ "/" +:+ approvalId)
                           (authorization_header token) status) in
           if negb (ok res) then throw (ThrownError "Unable to update approval.")
           else
             let* updated := await (json res) in
             setInternalApprovals
               (fun prev =>
                  List.map (fun item =>
                              if String.eqb (id item) approvalId then updated
                              else item) prev))
          (fun err =>
             setError (Some (error_message err "Unable to update approval.")))
          (setUpdatingId None)
  end.

Definition sortByTime (items : list Approval) : list Approval :=
  JsArray.sort
    (fun a b =>
       let aTime := Date_getTime (created_at a) in
       let bTime := Date_getTime (created_at b) in
       time_sub bTime aTime)
    items.

Record Partitions : Type := {
  pending : list Approval;
  resolved : list Approval;
}.

Definition sortedApprovals (approvals : list Approval) : Partitions :=
  let pending :=
    sortByTime
      (List.filter (fun item => String.eqb (status item) "pending") approvals) in
  let resolved :=
    sortByTime
      (List.filter (fun item => negb (String.eqb (status item) "pending")) approvals) in
  {| pending := pending; resolved := resolved |}.

End WithPlatform.
End Panel.

(** ** The revision that owns its state *)

Module SimplePanel.
Section WithPlatform.
Context `{Platform}.

Record Props : Type := { boardId : string }.

(** The title of an entry: [approval.action_type.replace(/_/g, " ")]. *)
Definition action_title (action_type : string) : string :=
  JsString.replace_underscores action_type.

Definition approvals_url (props : Props) : string :=
  apiBase +:+ "/api/v1/boards/" +:+ boardId props +:+ "/approvals".

Definition loadApprovals (props : Props) (auth : Auth)
    (fetch : Request -> outcome (Response (list Approval))) : M unit :=
  if negb (isSignedIn auth) || negb (JsString.truthy (boardId props))
  then ret tt
  else
    setIsLoading true ;;;
    setError None ;;;
    try_catch_finally
      (let* token := await (getToken auth) in
       let* res := perform_fetch fetch
                (GET (approvals_url props) (authorization_header token)) in
       if negb (ok res) then throw (ThrownError "Unable to load approvals.")
       else
         let* data := await (json res) in
         setInternalApprovals (fun _ => data))
      (fun err => setError (Some (error_message err "Unable to load approvals.")))
      (setIsLoading false).

Definition handleDecision (props : Props) (auth : Auth)
    (fetch : Request -> outcome (Response Approval))
    (approvalId : string) (status : Decision) : M unit :=
  if negb (isSignedIn auth) || negb (JsString.truthy (boardId props))
  then ret tt
  else
    setUpdatingId (Some approvalId) ;;;
    setError None ;;;
    try_catch_finally
      (let* token := await (getToken auth) in
       let* res := perform_fetch fetch
                (PATCH (approvals_url props +:+ "/" +:+ approvalId)
                       (authorization_header token) status) in
       if negb (ok res) then throw (ThrownError "Unable to update approval.")
       else
         let* updated := await (json res) in
         setInternalApprovals
           (fun prev =>
              List.map (fun item =>
                          if String.eqb (id item) approvalId then updated
                          else item) prev))
      (fun err =>
         setError (Some (error_message err "Unable to update approval.")))
      (setUpdatingId None).

Definition sortByTime (items : list Approval) : list Approval :=
  JsArray.sort
    (fun a b =>
       let aTime := Date_getTime (created_at a) in
       let bTime := Date_getTime (created_at b) in
       time_sub bTime aTime)
    items.

Definition sortedApprovals (approvals : list Approval) : list Approval :=
  let pending :=
    List.filter (fun item => String.eqb (status item) "pending") approvals in
  let resolved :=
    List.filter (fun item => negb (String.eqb (status item) "pending")) approvals in
  (sortByTime pending ++ sortByTime resolved)%list.

End WithPlatform.
End SimplePanel.

(** ** A reference platform

    A platform to run the model on: its numbers are the integers, rendered in
    decimal, and its date parser reads the UTC form [YYYY-MM-DDTHH:mm:ssZ] of
    the date-time string format and gives [NaN] on anything else. *)

Module Reference.

Definition digit (c : ascii) : option Z :=
  let n := nat_of_ascii c in
  if ((48 <=? n) && (n <=? 57))%nat then Some (Z.of_nat n - 48) else None.

Definition two_digits (a b : ascii) : option Z :=
  x ← digit a; y ← digit b; Some (10 * x + y).

Definition is_leap (y : Z) : bool :=
  (y mod 4 =? 0) && (negb (y mod 100 =? 0) || (y mod 400 =? 0)).

Definition days_in_month (y m : Z) : Z :=
  if m =? 2 then (if is_leap y then 29 else 28)
  else if (m =? 4) || (m =? 6) || (m =? 9) || (m =? 11) then 30
  else 31.

(** Days from 1970-01-01 to the given day of the proleptic Gregorian
    calendar. *)
Definition days_from_civil (y m d : Z) : Z :=
  let y' := if m <=? 2 then y - 1 else y in
  let era := y' / 400 in
  let yoe := y' - era * 400 in
  let doy := (153 * (if m >? 2 then m - 3 else m + 9) + 2) / 5 + d - 1 in
  let doe := yoe * 365 + yoe / 4 - yoe / 100 + doy in
  era * 146097 + doe - 719468.

Definition parse_utc (s : string) : option Z :=
  match list_ascii_of_string s with
  | [y1; y2; y3; y4; c1; m1; m2; c2; d1; d2; c3; h1; h2; c4; n1; n2; c5; s1; s2; c6] =>
      if Ascii.eqb c1 "-" && Ascii.eqb c2 "-" && Ascii.eqb c3 "T"
         && Ascii.eqb c4 ":" && Ascii.eqb c5 ":" && Ascii.eqb c6 "Z"
      then
        yh ← two_digits y1 y2; yl ← two_digits y3 y4;
        mo ← two_digits m1 m2; d ← two_digits d1 d2;
        h ← two_digits h1 h2; mi ← two_digits n1 n2; sec ← two_digits s1 s2;
        let y := 100 * yh + yl in
        if (1 <=? mo) && (mo <=? 12) && (1 <=? d) && (d <=? days_in_month y mo)
           && ((h <=? 23) || (h =? 24) && (mi =? 0) && (sec =? 0))
           && (mi <=? 59) && (sec <=? 59)
        then Some ((((days_from_civil y mo d * 24 + h) * 60 + mi) * 60 + sec) * 1000)
        else None
      else None
  | _ => None
  end.

Definition platform : Platform :=
  {| number := Z;
     Number_toString := pretty;
     Date_getTime := parse_utc;
     apiBase := "https://mission-control.example" |}.

End Reference.

(** ** Notions the statements use *)

Section Notions.
Context `{Platform}.

(** The text of a payload value that is a string or a number. *)
Definition scalar_text (v : JsValue) : option string :=
  match v with
  | JStr s => Some s
  | JNum n => Some (Number_toString n)
  | _ => None
  end.

(** The key spellings under which the field behind a row label is read. *)
Definition accepted_keys (row_label : string) : list string :=
  if String.eqb row_label "Task" then ["task_id"; "taskId"; "taskID"]
  else if String.eqb row_label "Assignee" then ["assigned_agent_id"; "assignedAgentId"]
  else if String.eqb row_label "Title" then ["title"]
  else if String.eqb row_label "Role" then ["role"]
  else [].

(** The payload of [a] holds a string or number with text [text] under one
    of [keys]. *)
Definition present_under (a : Approval) (keys : list string) (text : string) : Prop :=
  exists key fields v,
    key ∈ keys /\ payload a = Some fields /\ fields !! key = Some v
    /\ scalar_text v = Some text.

(** Every row of the summary shows a field that is present in the payload. *)
Definition rows_only_present (a : Approval) : Prop :=
  forall r, r ∈ Panel.rows (Panel.approvalSummary a) ->
    present_under a (accepted_keys (Panel.label r)) (Panel.value r).

(** [a] with only the strings and numbers of its payload kept. *)
Definition scalars_only (a : Approval) : Approval :=
  {| id := id a;
     action_type := action_type a;
     payload := filter (fun kv => is_Some (scalar_text kv.2)) <$> payload a;
     confidence := confidence a;
     rubric_scores := rubric_scores a;
     status := status a;
     created_at := created_at a;
     resolved_at := resolved_at a |}.

(** Where both creation times parse, [a] is not older than [b]. *)
Definition not_older (a b : Approval) : Prop :=
  forall ta tb,
    Date_getTime (created_at a) = Some ta ->
    Date_getTime (created_at b) = Some tb ->
    tb <= ta.

(** The props of the revision that owns its state, for the same board. *)
Definition simple_of (props : Panel.Props) : SimplePanel.Props :=
  {| SimplePanel.boardId := Panel.boardId props |}.

(** How the request of a call fails, and what its [catch] clause then
    receives: [getToken] throws, [fetch] throws, the response is not 2xx
    (an [Error] with the message [not_ok]), or reading its body throws.
    [request] builds the request from the [Authorization] header. *)
Inductive request_fails {B : Type} (auth : Auth)
    (fetch : Request -> outcome (Response B)) (request : string -> Request)
    (not_ok : string) : thrown -> Prop :=
| token_throws e :
    getToken auth = Threw e ->
    request_fails auth fetch request not_ok e
| fetch_throws token e :
    getToken auth = Returned token ->
    fetch (request (authorization_header token)) = Threw e ->
    request_fails auth fetch request not_ok e
| response_not_ok token res :
    getToken auth = Returned token ->
    fetch (request (authorization_header token)) = Returned res ->
    ok res = false ->
    request_fails auth fetch request not_ok (ThrownError not_ok)
| body_throws token res e :
    getToken auth = Returned token ->
    fetch (request (authorization_header token)) = Returned res ->
    ok res = true ->
    json res = Threw e ->
    request_fails auth fetch request not_ok e.

(** The request of [loadApprovals]. *)
Definition load_request (props : Panel.Props) (authorization : string) : Request :=
  GET (Panel.approvals_url props) authorization.

(** The request of [handleDecision]. *)
Definition decision_request (props : Panel.Props) (approvalId : string)
    (status : Decision) (authorization : string) : Request :=
  PATCH (Panel.approvals_url props +:+ "/" +:+ approvalId) authorization status.

(** [next] is [prev] with [updated] in the place of every record whose id is
    [approvalId], and nothing else changed. *)
Definition replaces_only (approvalId : string) (updated : Approval)
    (prev next : list Approval) : Prop :=
  List.length next = List.length prev
  /\ forall i item, prev !! i = Some item ->
       (id item = approvalId -> next !! i = Some updated)
       /\ (id item <> approvalId -> next !! i = Some item).

End Notions.

(** ** Sample data on the reference platform *)

Module Samples.

#[local] Existing Instance Reference.platform.

Definition approval (id action_type status created_at : string)
    (payload : option (gmap string JsValue)) : Approval :=
  {| id := id;
     action_type := action_type;
     payload := payload;
     confidence := 95;
     rubric_scores := None;
     status := status;
     created_at := created_at;
     resolved_at := None |}.

Definition a : Approval :=
  approval "a" "task.assign" "pending" "2024-01-01T00:00:00Z" None.
Definition b : Approval :=
  approval "b" "task.create" "approved" "2024-01-02T00:00:00Z" None.
Definition c : Approval :=
  approval "c" "task.assign_role" "pending" "2024-01-03T00:00:00Z"
    (Some {[ "task_id" := JStr "T-7"; "role" := JStr "reviewer";
             "title" := JObj []; "assignedAgentId" := JNum 12 ]}).
Definition d : Approval :=
  approval "d" "task.update" "pending" "yesterday" None.
Definition e : Approval :=
  approval "e" "task.close" "rejected" "2024-01-05T00:00:00Z" None.

Definition board : list Approval := [a; b; c; d; e].

(** The record the server returns for an approved [a]. *)
Definition a_approved : Approval :=
  {| id := "a";
     action_type := "task.assign";
     payload := None;
     confidence := 95;
     rubric_scores := None;
     status := "approved";
     created_at := "2024-01-01T00:00:00Z";
     resolved_at := Some "2024-01-06T00:00:00Z" |}.

Definition state : PanelState :=
  {| internalApprovals := board;
     isLoading := false;
     error := None;
     updatingId := None |}.

Definition machine : Machine := {| panel := state; trace := [] |}.

Definition props : Panel.Props :=
  {| Panel.boardId := "board-1";
     Panel.externalApprovals := None;
     Panel.externalLoading := None;
     Panel.externalError := None;
     Panel.onRefresh := None;
     Panel.onDecision := None |}.

Definition signed_in : Auth :=
  {| isSignedIn := true; getToken := Returned (Some "tok") |}.

Definition signed_out : Auth :=
  {| isSignedIn := false; getToken := Returned None |}.

(** A server that answers every request with status 500. *)
Definition server_error {B : Type} (r : Request) : outcome (Response B) :=
  Returned {| ok := false; json := Threw (ThrownError "Unexpected end of JSON input") |}.

(** A network that is down: [fetch] rejects with a [TypeError]. *)
Definition network_down {B : Type} (r : Request) : outcome (Response B) :=
  Threw (ThrownError "Failed to fetch").

(** A server that accepts every decision and returns [a_approved]. *)
Definition server_approves (r : Request) : outcome (Response Approval) :=
  Returned {| ok := true; json := Returned a_approved |}.

(** A handler of the host that returns. *)
Definition host_handler (approvalId : string) (status : Decision) : outcome unit :=
  Returned tt.

Definition delegating_props : Panel.Props :=
  {| Panel.boardId := "board-1";
     Panel.externalApprovals := None;
     Panel.externalLoading := None;
     Panel.externalError := None;
     Panel.onRefresh := None;
     Panel.onDecision := Some host_handler |}.

End Samples.

(** ** What an entry shows

    The three formatters that both revisions define above the component.
    [toLocaleString] with the options of [formatTimestamp] and the comparison
    of a number with a literal are taken from the platform. A comparison with
    [NaN] is false. *)

Class Display `{Platform} := {
  Date_toLocaleString : Z -> string;
  Number_ge : number -> Z -> bool;
}.

Section Formatters.
Context `{Display}.

Definition formatTimestamp (value : option string) : string :=
  match value with
  | None => "—"
  | Some v =>
      if negb (JsString.truthy v) then "—"
      else match Date_getTime v with
           | None => v
           | Some time => Date_toLocaleString time
           end
  end.

Definition statusBadgeVariant (status : string) : string :=
  if String.eqb status "approved" then "success"
  else if String.eqb status "rejected" then "danger"
  else "outline".

Definition confidenceVariant (confidence : number) : string :=
  if Number_ge confidence 90 then "success"
  else if Number_ge confidence 80 then "accent"
  else "warning".

(** [x ? x : null] on a [string | null]: what a conditional on a string
    renders. *)
Definition shown_text (x : option string) : option string :=
  match x with
  | Some s => if JsString.truthy s then Some s else None
  | None => None
  end.

(** The [details] disclosure: there when the payload or the rubric scores
    are, with the two objects it prints. The text [JSON.stringify] gives
    them is not modelled. *)
Definition details_of (approval : Approval)
    : option (option (gmap string JsValue) * option (gmap string number)) :=
  match payload approval, rubric_scores approval with
  | None, None => None
  | p, r => Some (p, r)
  end.

End Formatters.

(** ** What the component renders

    The tree that the component returns, without its tags and class names:
    the texts and values it shows and the conditions under which it shows
    them. The two buttons of an entry are one field: [None] when the entry
    has no buttons, [Some disabled] when it has them. *)

Module PanelView.
Section WithDisplay.
Context `{Display}.

Record Card : Type := {
  key : string;
  title : string;
  requested : string;
  confidence_badge : string * string;
  status_badge : string * string;
  summary_rows : option (list Panel.Row);
  summary_reason : option string;
  details : option (option (gmap string JsValue) * option (gmap string number));
  buttons : option bool;
}.

(** The part that the entries of both sections share. *)
Definition card (buttons : option bool) (approval : Approval) : Card :=
  let summary := Panel.approvalSummary approval in
  {| key := id approval;
     title := Panel.humanizeAction (action_type approval);
     requested := "Requested " +:+ formatTimestamp (Some (created_at approval));
     confidence_badge :=
       (confidenceVariant (confidence approval),
        Number_toString (confidence approval) +:+ "% confidence");
     status_badge := (statusBadgeVariant (status approval), status approval);
     summary_rows :=
       if (0 <? List.length (Panel.rows summary))%nat
       then Some (Panel.rows summary) else None;
     summary_reason := shown_text (Panel.reason summary);
     details := details_of approval;
     buttons := buttons |}.

(** [disabled={updatingId === approval.id}]. *)
Definition disabled (updating : option string) (approval : Approval) : bool :=
  match updating with
  | Some u => String.eqb u (id approval)
  | None => false
  end.

Definition pending_card (updating : option string) (approval : Approval) : Card :=
  card (Some (disabled updating approval)) approval.

Definition resolved_card (approval : Approval) : Card := card None approval.

Inductive Body : Type :=
| Loading
| NoApprovals
| Sections (pending_section resolved_section : option (list Card)).

(** [onClick={onRefresh ?? loadApprovals}]. *)
Inductive RefreshTarget : Type :=
| HostRefresh (handler : outcome unit)
| OwnLoad.

Record View : Type := {
  pending_count : nat;
  refresh : RefreshTarget;
  banner : option string;
  body : Body;
}.

Definition render (props : Panel.Props) (s : PanelState) : View :=
  let sortedApprovals := Panel.sortedApprovals (Panel.approvals props s) in
  let pending := Panel.pending sortedApprovals in
  let resolved := Panel.resolved sortedApprovals in
  {| pending_count := List.length pending;
     refresh := match Panel.onRefresh props with
                | Some handler => HostRefresh handler
                | None => OwnLoad
                end;
     banner := shown_text (Panel.errorState props s);
     body :=
       if Panel.loadingState props s then Loading
       else if ((List.length pending =? 0) && (List.length resolved =? 0))%nat
       then NoApprovals
       else Sections
              (if (0 <? List.length pending)%nat
               then Some (List.map (pending_card (updatingId s)) pending) else None)
              (if (0 <? List.length resolved)%nat
               then Some (List.map resolved_card resolved) else None) |}.

End WithDisplay.
End PanelView.

Module SimplePanelView.
Section WithDisplay.
Context `{Display}.

Record Card : Type := {
  key : string;
  title : string;
  requested : string;
  confidence_badge : string * string;
  status_badge : string * string;
  details : option (option (gmap string JsValue) * option (gmap string number));
  buttons : option bool;
}.

Definition card (updating : option string) (approval : Approval) : Card :=
  {| key := id approval;
     title := SimplePanel.action_title (action_type approval);
     requested := "Requested " +:+ formatTimestamp (Some (created_at approval));
     confidence_badge :=
       (confidenceVariant (confidence approval),
        Number_toString (confidence approval) +:+ "% confidence");
     status_badge := (statusBadgeVariant (status approval), status approval);
     details := details_of approval;
     buttons :=
       if String.eqb (status approval) "pending"
       then Some (PanelView.disabled updating approval) else None |}.

Inductive Body : Type :=
| Loading
| NoApprovals
| Entries (cards : list Card).

Record View : Type := {
  banner : option string;
  body : Body;
}.

Definition render (s : PanelState) : View :=
  let sortedApprovals := SimplePanel.sortedApprovals (internalApprovals s) in
  {| banner := shown_text (error s);
     body :=
       if isLoading s then Loading
       else if (List.length sortedApprovals =? 0)%nat then NoApprovals
       else Entries (List.map (card (updatingId s)) sortedApprovals) |}.

End WithDisplay.
End SimplePanelView.

(** ** The polling effect

    The effect that loads on mount and then every 15 seconds. The timers of
    the page are a table from the identifiers [setInterval] has given out to
    the delays they were set with; [setInterval] takes the next identifier.
    The call [loadApprovals()] of the effect is not awaited: its promise is
    dropped, and the model runs it to its end on the machine. *)

Module Polling.
Section WithPlatform.
Context `{Platform}.

Record Timers : Type := {
  next_timer : nat;
  intervals : gmap nat Z;
}.

Definition setInterval (delay : Z) (t : Timers) : nat * Timers :=
  (next_timer t,
   {| next_timer := S (next_timer t);
      intervals := <[next_timer t := delay]> (intervals t) |}).

Definition clearInterval (timer : nat) (t : Timers) : Timers :=
  {| next_timer := next_timer t; intervals := delete timer (intervals t) |}.

(** The effect of the revision with the injection surface. The result is
    the interval that the cleanup function of the effect holds, if the effect
    returns one. *)
Definition panel_effect (props : Panel.Props) (auth : Auth)
    (fetch : Request -> outcome (Response (list Approval)))
    (w : Machine * Timers) : option nat * (Machine * Timers) :=
  if Panel.usingExternal props then (None, w)
  else
    let m := (Panel.loadApprovals props auth fetch w.1).2 in
    if negb (isSignedIn auth) || negb (JsString.truthy (Panel.boardId props))
    then (None, (m, w.2))
    else
      let (interval, t) := setInterval 15000 w.2 in
      (Some interval, (m, t)).

(** The effect of the revision that owns its state. *)
Definition simple_effect (props : SimplePanel.Props) (auth : Auth)
    (fetch : Request -> outcome (Response (list Approval)))
    (w : Machine * Timers) : option nat * (Machine * Timers) :=
  let m := (SimplePanel.loadApprovals props auth fetch w.1).2 in
  if negb (isSignedIn auth) || negb (JsString.truthy (SimplePanel.boardId props))
  then (None, (m, w.2))
  else
    let (interval, t) := setInterval 15000 w.2 in
    (Some interval, (m, t)).

(** The cleanup function: [() => clearInterval(interval)], or nothing. *)
Definition cleanup (held : option nat) (t : Timers) : Timers :=
  match held with
  | Some interval => clearInterval interval t
  | None => t
  end.

(** The interval firing again and again: one call of [loadApprovals] for
    each answer of the outside, in order. *)
Fixpoint ticks (props : Panel.Props)
    (answers : list (Auth * (Request -> outcome (Response (list Approval)))))
    (m : Machine) : Machine :=
  match answers with
  | [] => m
  | (auth, fetch) :: rest =>
      ticks props rest (Panel.loadApprovals props auth fetch m).2
  end.

End WithPlatform.
End Polling.

(** ** More notions the statements use *)

(** Every character of [s] passes the test [p]. *)
Fixpoint chars_all (p : ascii -> bool) (s : string) : bool :=
  match s with
  | EmptyString => true
  | String c rest => p c && chars_all p rest
  end.

(** Whether a word character comes last in [s], or before [s] when [s] is
    empty: what [\b] sees at the end of [s]. *)
Fixpoint ends_in_word (before : bool) (s : string) : bool :=
  match s with
  | EmptyString => before
  | String c rest => ends_in_word (JsString.is_word_char c) rest
  end.

Section MoreNotions.
Context `{Platform}.

(** The body that the request of a call brings back, when the token is
    obtained, the response is 2xx and its body is read. *)
Definition request_body {B : Type} (auth : Auth)
    (fetch : Request -> outcome (Response B)) (request : string -> Request)
    : option B :=
  match getToken auth with
  | Returned token =>
      match fetch (request (authorization_header token)) with
      | Returned res =>
          if ok res
          then match json res with
               | Returned body => Some body
               | Threw _ => None
               end
          else None
      | Threw _ => None
      end
  | Threw _ => None
  end.

(** The component manages its own state and its calls go out: nothing is
    injected, the session is signed in and the board is named. *)
Definition self_managed (props : Panel.Props) (auth : Auth) : Prop :=
  Panel.onDecision props = None
  /\ Panel.externalApprovals props = None
  /\ isSignedIn auth = true
  /\ Panel.boardId props <> "".

(** The props of the revision with the injection surface that inject
    nothing, for the board of [props]. *)
Definition plain_of (props : SimplePanel.Props) : Panel.Props :=
  {| Panel.boardId := SimplePanel.boardId props;
     Panel.externalApprovals := None;
     Panel.externalLoading := None;
     Panel.externalError := None;
     Panel.onRefresh := None;
     Panel.onDecision := None |}.

(** The first of [keys] under which [fields] holds a string or a number,
    as its text. *)
Fixpoint first_scalar (fields : gmap string JsValue) (keys : list string)
    : option string :=
  match keys with
  | [] => None
  | key :: rest =>
      match fields !! key ≫= scalar_text with
      | Some text => Some text
      | None => first_scalar fields rest
      end
  end.

(** The row of a field read as [text]: none when the field is absent or its
    text is empty. *)
Definition optional_row (row_label : string) (text : option string)
    : list Panel.Row :=
  match text with
  | Some t =>
      if String.eqb t "" then []
      else [ {| Panel.label := row_label; Panel.value := t |} ]
  | None => []
  end.

End MoreNotions.

Section ViewNotions.
Context `{Display}.

(** The entries of a view, pending section first. *)
Definition cards_of (v : PanelView.View) : list PanelView.Card :=
  match PanelView.body v with
  | PanelView.Sections pending resolved => (default [] pending ++ default [] resolved)%list
  | _ => []
  end.

Definition simple_cards_of (v : SimplePanelView.View) : list SimplePanelView.Card :=
  match SimplePanelView.body v with
  | SimplePanelView.Entries cards => cards
  | _ => []
  end.

(** The entries that have buttons: their keys, and whether the buttons are
    disabled. *)
Definition actionable (v : PanelView.View) : list (string * bool) :=
  omap (fun c => (fun d => (PanelView.key c, d)) <$> PanelView.buttons c) (cards_of v).

Definition simple_actionable (v : SimplePanelView.View) : list (string * bool) :=
  omap (fun c => (fun d => (SimplePanelView.key c, d)) <$> SimplePanelView.buttons c)
    (simple_cards_of v).

End ViewNotions.

(** ** A reference display and more sample data

    The display of the reference platform prints a time as the locale
    [en-US] does in UTC with the options of [formatTimestamp], as in
    [Jan 2, 09:05 AM], and compares integers. *)

Module ReferenceDisplay.

#[local] Existing Instance Reference.platform.

(** The month and the day of the month of a day counted from 1970-01-01. *)
Definition civil_from_days (days : Z) : Z * Z :=
  let z := days + 719468 in
  let era := z / 146097 in
  let doe := z - era * 146097 in
  let yoe := (doe - doe / 1460 + doe / 36524 - doe / 146096) / 365 in
  let doy := doe - (365 * yoe + yoe / 4 - yoe / 100) in
  let mp := (5 * doy + 2) / 153 in
  let d := doy - (153 * mp + 2) / 5 + 1 in
  let m := if mp <? 10 then mp + 3 else mp - 9 in
  (m, d).

Definition month_name (m : Z) : string :=
  nth (Z.to_nat (m - 1))
    ["Jan"; "Feb"; "Mar"; "Apr"; "May"; "Jun";
     "Jul"; "Aug"; "Sep"; "Oct"; "Nov"; "Dec"] "Dec".

Definition two (n : Z) : string :=
  if n <? 10 then "0" +:+ pretty n else pretty n.

Definition toLocaleString (time : Z) : string :=
  let days := time / 86400000 in
  let ms := time mod 86400000 in
  let hour := ms / 3600000 in
  let minute := (ms / 60000) mod 60 in
  let (m, d) := civil_from_days days in
  let hour12 := if hour mod 12 =? 0 then 12 else hour mod 12 in
  month_name m +:+ " " +:+ pretty d +:+ ", " +:+ two hour12 +:+ ":" +:+ two minute
  +:+ (if hour <? 12 then " AM" else " PM").

Definition display : Display :=
  {| Date_toLocaleString := toLocaleString;
     Number_ge := fun (n : number) (k : Z) => k <=? (n : Z) |}.

End ReferenceDisplay.

Module MoreSamples.

#[local] Existing Instance Reference.platform.

(** The record the server returns for a rejected [c]. *)
Definition c_rejected : Approval :=
  {| id := "c";
     action_type := "task.assign_role";
     payload := payload Samples.c;
     confidence := 95;
     rubric_scores := None;
     status := "rejected";
     created_at := "2024-01-03T00:00:00Z";
     resolved_at := Some "2024-01-06T09:05:00Z" |}.

(** A server that takes the decisions on [a] and on [c] and knows no other
    approval. *)
Definition server_decides (r : Request) : outcome (Response Approval) :=
  match r with
  | PATCH url _ _ =>
      if String.eqb url
           "https://mission-control.example/api/v1/boards/board-1/approvals/a"
      then Returned {| ok := true; json := Returned Samples.a_approved |}
      else if String.eqb url
                "https://mission-control.example/api/v1/boards/board-1/approvals/c"
      then Returned {| ok := true; json := Returned c_rejected |}
      else Returned {| ok := false; json := Threw ThrownOther |}
  | GET _ _ => Returned {| ok := false; json := Threw ThrownOther |}
  end.

(** A server that lists the board with [a] approved. *)
Definition server_lists (r : Request) : outcome (Response (list Approval)) :=
  Returned {| ok := true;
              json := Returned [Samples.a_approved; Samples.b] |}.

(** An auth provider whose [getToken] throws an [Error] without message. *)
Definition silent_failure : Auth :=
  {| isSignedIn := true; getToken := Threw (ThrownError "") |}.


(** A machine that still shows an old error and an updating marker. *)
Definition stale_machine : Machine :=
  {| panel := {| internalApprovals := Samples.board;
                 isLoading := false;
                 error := Some "Unable to load approvals.";
                 updatingId := Some "a" |};
     trace := [] |}.

(** A task update: not an assignment, with a task id and a title. *)
Definition f : Approval :=
  Samples.approval "f" "task.update" "pending" "2024-01-04T00:00:00Z"
    (Some {[ "taskId" := JStr "T-9"; "title" := JStr "Fix the build";
             "task_id" := JBool true ]}).

(** A reassignment with a reason: the task id is a number under the third
    spelling, the assignee comes under the first one, the role is empty. *)
Definition g : Approval :=
  Samples.approval "g" "task.reassign" "pending" "2024-01-07T00:00:00Z"
    (Some {[ "taskID" := JNum 7; "assigned_agent_id" := JStr "agent-3";
             "title" := JStr "Fix the build"; "role" := JStr "";
             "reason" := JStr "On call this week" ]}).

(** The timers of a page where one other interval runs. *)
Definition timers : Polling.Timers :=
  {| Polling.next_timer := 4; Polling.intervals := {[ 2%nat := 250 ]} |}.

End MoreSamples.

(** * Properties *)

(** ** Sorting *)

Section SortFacts.
Context {A : Type} (comparefn : A -> A -> option Z).

Lemma insert_Permutation (x : A) (l : list A) :
  JsArray.insert comparefn x l ≡ₚ x :: l.
Proof.
  induction l as [|y l IH]; simpl; [done|].
  destruct (JsArray.SortCompare comparefn x y <=? 0); [done|].
  rewrite IH. apply perm_swap.
Qed.

Lemma sort_Permutation (l : list A) : JsArray.sort comparefn l ≡ₚ l.
Proof.
  induction l as [|x l IH]; simpl; [done|].
  unfold JsArray.sort in IH. by rewrite insert_Permutation, IH.
Qed.

Lemma sort_length (l : list A) :
  List.length (JsArray.sort comparefn l) = List.length l.
Proof. apply Permutation_length, sort_Permutation. Qed.

(** A relation that holds from [x] to [y] whenever the comparison does not
    put [y] first, and from [y] to [x] whenever it does, holds between the
    neighbours of the sorted list. It need not be transitive. *)
Section Neighbours.
Context (R : A -> A -> Prop).
Hypothesis R_keep : forall x y, JsArray.SortCompare comparefn x y <= 0 -> R x y.
Hypothesis R_swap : forall x y, 0 < JsArray.SortCompare comparefn x y -> R y x.

Lemma insert_HdRel (z x : A) (l : list A) :
  R z x -> HdRel R z l -> HdRel R z (JsArray.insert comparefn x l).
Proof.
  intros Hzx Hz. destruct l as [|y l]; simpl; [by constructor|].
  destruct (JsArray.SortCompare comparefn x y <=? 0); constructor; [done|].
  by inversion Hz.
Qed.

Lemma insert_Sorted (x : A) (l : list A) :
  Sorted R l -> Sorted R (JsArray.insert comparefn x l).
Proof.
  induction 1 as [|y l Hl IH Hy]; simpl; [by repeat constructor|].
  destruct (Z.leb_spec (JsArray.SortCompare comparefn x y) 0) as [Hle|Hgt].
  - constructor; [by constructor|]. constructor. by apply R_keep.
  - constructor; [done|]. apply insert_HdRel; [by apply R_swap|done].
Qed.

Lemma sort_Sorted (l : list A) : Sorted R (JsArray.sort comparefn l).
Proof.
  induction l as [|x l IH]; simpl; [constructor|]. by apply insert_Sorted.
Qed.
End Neighbours.
End SortFacts.

(** ** The presenter *)

Section Presenter.
Context `{Platform}.

Lemma filter_negb_Permutation {A} (f : A -> bool) (l : list A) :
  (List.filter f l ++ List.filter (fun x => negb (f x)) l)%list ≡ₚ l.
Proof.
  induction l as [|x l IH]; simpl; [done|].
  destruct (f x); simpl.
  - by rewrite IH.
  - by rewrite <- Permutation_middle, IH.
Qed.

Lemma elem_of_sort_filter (f : Approval -> bool) (l : list Approval) (a : Approval)
    (comparefn : Approval -> Approval -> option Z) :
  a ∈ JsArray.sort comparefn (List.filter f l) <-> a ∈ l /\ f a = true.
Proof.
  rewrite (sort_Permutation comparefn (List.filter f l)).
  rewrite !list_elem_of_In. apply filter_In.
Qed.

Lemma pending_status (a : Approval) :
  String.eqb (status a) "pending" = true <-> status a = "pending".
Proof. apply String.eqb_eq. Qed.

Lemma resolved_status (a : Approval) :
  negb (String.eqb (status a) "pending") = true <-> status a <> "pending".
Proof. rewrite negb_true_iff. apply String.eqb_neq. Qed.

Lemma sortByTime_neighbours (items : list Approval) :
  Sorted not_older (Panel.sortByTime items).
Proof.
  apply sort_Sorted; intros x y; unfold JsArray.SortCompare, not_older;
    intros Hc ta tb Ha Hb; rewrite Ha, Hb in Hc; simpl in Hc; lia.
Qed.

(** When every creation time parses, the comparison is an order and the
    whole sorted list is descending, not only its neighbours. *)
Lemma sortByTime_all_parsed (items : list Approval) :
  Forall (fun a => is_Some (Date_getTime (created_at a))) items ->
  StronglySorted not_older (Panel.sortByTime items).
Proof.
  intros Hparsed.
  assert (Forall (fun a => is_Some (Date_getTime (created_at a)))
            (Panel.sortByTime items)) as Hall.
  { unfold Panel.sortByTime. by rewrite sort_Permutation. }
  pose proof (sortByTime_neighbours items) as Hsorted.
  induction Hsorted as [|x l Hl IH Hx]; [constructor|].
  apply Forall_cons in Hall as [_ Hall].
  constructor; [by apply IH|].
  destruct Hx as [|y l Hxy]; [constructor|].
  specialize (IH Hall). apply StronglySorted_inv in IH as [_ Hy].
  apply Forall_cons in Hall as [[ty Hty] _].
  constructor; [done|].
  eapply Forall_impl; [exact Hy|].
  intros z Hyz tx tz Htx Htz.
  specialize (Hxy tx ty Htx Hty). specialize (Hyz ty tz Hty Htz). lia.
Qed.

Lemma simple_sortByTime (items : list Approval) :
  SimplePanel.sortByTime items = Panel.sortByTime items.
Proof. reflexivity. Qed.

Lemma simple_sortedApprovals (approvals : list Approval) :
  SimplePanel.sortedApprovals approvals
  = (Panel.pending (Panel.sortedApprovals approvals)
     ++ Panel.resolved (Panel.sortedApprovals approvals))%list.
Proof. reflexivity. Qed.

(** C1. The two partitions of the presenter are complementary: put
    together they are a rearrangement of the collection, a record is in
    the pending partition exactly when it is in the collection with status
    ["pending"], and in the resolved partition exactly when it is in the
    collection with any other status. The flat list of the other revision
    is the pending partition followed by the resolved one. *)
Theorem partition_strict_complement (approvals : list Approval) :
  let parts := Panel.sortedApprovals approvals in
  (Panel.pending parts ++ Panel.resolved parts)%list ≡ₚ approvals
  /\ (forall a, a ∈ Panel.pending parts <-> a ∈ approvals /\ status a = "pending")
  /\ (forall a, a ∈ Panel.resolved parts <-> a ∈ approvals /\ status a <> "pending")
  /\ SimplePanel.sortedApprovals approvals
     = (Panel.pending parts ++ Panel.resolved parts)%list.
Proof.
  simpl. split; [|split; [|split]].
  - unfold Panel.sortByTime. rewrite !sort_Permutation.
    apply filter_negb_Permutation.
  - intros a. unfold Panel.sortByTime.
    rewrite elem_of_sort_filter, pending_status. tauto.
  - intros a. unfold Panel.sortByTime.
    rewrite elem_of_sort_filter, resolved_status. tauto.
  - reflexivity.
Qed.

End Presenter.

(** ** The fetcher and the decision submitter *)

Ltac unfold_call :=
  unfold Panel.loadApprovals, Panel.handleDecision,
    SimplePanel.loadApprovals, SimplePanel.handleDecision,
    load_request, decision_request,
    SimplePanel.approvals_url, Panel.approvals_url, simple_of,
    try_catch_finally, perform_fetch, bind, emit, await, throw, ret,
    setInternalApprovals, setIsLoading, setError, setUpdatingId, modify in *;
  simpl in *.

Section Calls.
Context `{Platform}.

Lemma truthy_nonempty (s : string) : s <> "" -> JsString.truthy s = true.
Proof. by destruct s. Qed.

Lemma truthy_empty (s : string) : s = "" -> JsString.truthy s = false.
Proof. by intros ->. Qed.

Lemma guard_closed (auth : Auth) (board : string) :
  isSignedIn auth = false \/ board = "" ->
  negb (isSignedIn auth) || negb (JsString.truthy board) = true.
Proof.
  intros [-> | ->]; [done|]. simpl. by rewrite orb_true_r.
Qed.

Lemma guard_open (auth : Auth) (board : string) :
  isSignedIn auth = true -> board <> "" ->
  negb (isSignedIn auth) || negb (JsString.truthy board) = false.
Proof. intros -> Hb. by rewrite (truthy_nonempty _ Hb). Qed.

Lemma network_requests_app (t1 t2 : list Event) :
  network_requests (t1 ++ t2) = (network_requests t1 ++ network_requests t2)%list.
Proof. apply omap_app. Qed.

(** C4. When a collection is loaded and the fetch of [loadApprovals] fails
    (the token or the request throws, the response is not 2xx, or its body
    cannot be read), the collection is the one before the call and the error
    is a string: the text ["Unable to load approvals."] for a response that
    is not 2xx, the message of the failure when an [Error] was thrown, and
    ["Unable to load approvals."] again when what was thrown is no [Error].
    Both revisions. *)
Theorem failed_fetch_keeps_collection (props : Panel.Props) (auth : Auth)
    (fetch : Request -> outcome (Response (list Approval))) (m : Machine) (e : thrown)
    (Hsigned : isSignedIn auth = true)
    (Hboard : Panel.boardId props <> "")
    (Hfails : request_fails auth fetch (load_request props)
                "Unable to load approvals." e) :
  let after := (Panel.loadApprovals props auth fetch m).2 in
  let after_simple := (SimplePanel.loadApprovals (simple_of props) auth fetch m).2 in
  let shows (s : PanelState) : Prop :=
    (forall token res,
       getToken auth = Returned token ->
       fetch (load_request props (authorization_header token)) = Returned res ->
       ok res = false ->
       error s = Some "Unable to load approvals.")
    /\ (forall message, e = ThrownError message -> error s = Some message)
    /\ (e = ThrownOther -> error s = Some "Unable to load approvals.") in
  (Panel.usingExternal props = false ->
     internalApprovals (panel after) = internalApprovals (panel m)
     /\ Panel.approvals props (panel after) = Panel.approvals props (panel m)
     /\ shows (panel after))
  /\ internalApprovals (panel after_simple) = internalApprovals (panel m)
  /\ shows (panel after_simple).
Proof.
  pose proof (guard_open _ _ Hsigned Hboard) as Hguard.
  cbv zeta. split.
  - intros Hext. unfold Panel.approvals.
    unfold Panel.usingExternal in Hext.
    destruct (Panel.externalApprovals props) eqn:Hx; [done|].
    destruct Hfails as [e He | token e Ht Hf | token res Ht Hf Hok
                       | token res e Ht Hf Hok Hj];
      unfold_call; unfold Panel.usingExternal; rewrite Hx, Hguard;
      rewrite ?He, ?Ht; simpl; rewrite ?Hf; simpl; rewrite ?Hok; simpl;
      rewrite ?Hj; simpl;
      (split; [done|]); (split; [done|]);
      (split; [intros token' res' Ht' Hf' Hok'; congruence|]);
      (split; [intros message Hm|intros Hm]; try (rewrite Hm; simpl); congruence).
  - destruct Hfails as [e He | token e Ht Hf | token res Ht Hf Hok
                       | token res e Ht Hf Hok Hj];
      unfold_call; rewrite Hguard;
      rewrite ?He, ?Ht; simpl; rewrite ?Hf; simpl; rewrite ?Hok; simpl;
      rewrite ?Hj; simpl;
      (split; [done|]);
      (split; [intros token' res' Ht' Hf' Hok'; congruence|]);
      (split; [intros message Hm|intros Hm]; try (rewrite Hm; simpl); congruence).
Qed.

Lemma map_replaces_only (approvalId : string) (updated : Approval)
    (prev : list Approval) :
  replaces_only approvalId updated prev
    (List.map (fun item => if String.eqb (id item) approvalId then updated else item)
       prev).
Proof.
  split; [apply length_map|].
  intros i item Hi.
  change (List.map ?f prev) with (f <$> prev).
  rewrite list_lookup_fmap, Hi. simpl.
  split; intros Hid.
  - apply String.eqb_eq in Hid. by rewrite Hid.
  - apply String.eqb_neq in Hid. by rewrite Hid.
Qed.

(** C3. When a decision succeeds (the token is obtained, the response is
    2xx and its body is read as the updated record), the collection after
    the call has the length of the collection before it, holds the updated
    record wherever a record with the target id was, and holds every other
    record where it was. Both revisions. *)
Theorem decision_replaces_target (props : Panel.Props) (auth : Auth)
    (fetch : Request -> outcome (Response Approval))
    (approvalId : string) (status : Decision) (m : Machine)
    (token : option string) (res : Response Approval) (updated : Approval)
    (Hsigned : isSignedIn auth = true)
    (Hboard : Panel.boardId props <> "")
    (Htoken : getToken auth = Returned token)
    (Hfetch : fetch (decision_request props approvalId status
                       (authorization_header token)) = Returned res)
    (Hok : ok res = true)
    (Hjson : json res = Returned updated) :
  let after := (Panel.handleDecision props auth fetch approvalId status m).2 in
  let after_simple :=
    (SimplePanel.handleDecision (simple_of props) auth fetch approvalId status m).2 in
  (Panel.onDecision props = None -> Panel.usingExternal props = false ->
     replaces_only approvalId updated
       (internalApprovals (panel m)) (internalApprovals (panel after)))
  /\ replaces_only approvalId updated
       (internalApprovals (panel m)) (internalApprovals (panel after_simple)).
Proof.
  pose proof (guard_open _ _ Hsigned Hboard) as Hguard.
  simpl. split.
  - intros Hnone Hext. unfold_call. rewrite Hnone, Hext, Hguard, Htoken. simpl.
    rewrite Hfetch. simpl. rewrite Hok. simpl. rewrite Hjson. simpl.
    apply map_replaces_only.
  - unfold_call. rewrite Hguard, Htoken. simpl.
    rewrite Hfetch. simpl. rewrite Hok. simpl. rewrite Hjson. simpl.
    apply map_replaces_only.
Qed.

(** C5. Whatever the outcome of a decision request, the updating marker is
    cleared after the call; and when the response to the [PATCH] is not 2xx,
    the error is ["Unable to update approval."] and the collection, hence
    the target record and its status, is the one before the call. Both
    revisions. *)
Theorem failed_decision_keeps_state (props : Panel.Props) (auth : Auth)
    (fetch : Request -> outcome (Response Approval))
    (approvalId : string) (status : Decision) (m : Machine)
    (Hsigned : isSignedIn auth = true)
    (Hboard : Panel.boardId props <> "") :
  let after := (Panel.handleDecision props auth fetch approvalId status m).2 in
  let after_simple :=
    (SimplePanel.handleDecision (simple_of props) auth fetch approvalId status m).2 in
  (Panel.onDecision props = None -> Panel.usingExternal props = false ->
     updatingId (panel after) = None
     /\ forall token res,
          getToken auth = Returned token ->
          fetch (decision_request props approvalId status
                   (authorization_header token)) = Returned res ->
          ok res = false ->
          error (panel after) = Some "Unable to update approval."
          /\ internalApprovals (panel after) = internalApprovals (panel m))
  /\ updatingId (panel after_simple) = None
  /\ forall token res,
       getToken auth = Returned token ->
       fetch (decision_request props approvalId status
                (authorization_header token)) = Returned res ->
       ok res = false ->
       error (panel after_simple) = Some "Unable to update approval."
       /\ internalApprovals (panel after_simple) = internalApprovals (panel m).
Proof.
  pose proof (guard_open _ _ Hsigned Hboard) as Hguard.
  simpl. split; [intros Hnone Hext|]; (split; [|intros token res Htoken Hfetch Hok]);
    unfold_call; rewrite ?Hnone, ?Hext, Hguard.
  - destruct (getToken auth) as [tok|]; simpl; [|done].
    destruct (fetch _) as [r|]; simpl; [|done].
    destruct (ok r); simpl; [|done]. by destruct (json r).
  - rewrite Htoken. simpl. rewrite Hfetch. simpl. by rewrite Hok.
  - destruct (getToken auth) as [tok|]; simpl; [|done].
    destruct (fetch _) as [r|]; simpl; [|done].
    destruct (ok r); simpl; [|done]. by destruct (json r).
  - rewrite Htoken. simpl. rewrite Hfetch. simpl. by rewrite Hok.
Qed.

(** C8. When the session is not signed in or the board identifier is empty,
    [loadApprovals] returns with the machine as it was, and
    [handleDecision] leaves the state cells (collection, loading flag,
    error, updating marker) as they were and sends no request; with no
    handler of the host supplied it leaves the whole machine as it was.
    In the revision that owns its state both calls leave the machine as it
    was. *)
Theorem closed_guard_is_noop (props : Panel.Props) (auth : Auth)
    (fetch_list : Request -> outcome (Response (list Approval)))
    (fetch_one : Request -> outcome (Response Approval))
    (approvalId : string) (status : Decision) (m : Machine)
    (Hclosed : isSignedIn auth = false \/ Panel.boardId props = "") :
  let after := (Panel.handleDecision props auth fetch_one approvalId status m).2 in
  Panel.loadApprovals props auth fetch_list m = (Returned tt, m)
  /\ panel after = panel m
  /\ network_requests (trace after) = network_requests (trace m)
  /\ (Panel.onDecision props = None ->
      Panel.handleDecision props auth fetch_one approvalId status m = (Returned tt, m))
  /\ SimplePanel.loadApprovals (simple_of props) auth fetch_list m = (Returned tt, m)
  /\ SimplePanel.handleDecision (simple_of props) auth fetch_one approvalId status m
     = (Returned tt, m).
Proof.
  pose proof (guard_closed _ _ Hclosed) as Hguard.
  simpl. repeat apply conj.
  - unfold_call. rewrite Hguard. by destruct (Panel.usingExternal props).
  - unfold_call. destruct (Panel.onDecision props); [done|].
    rewrite Hguard. by destruct (Panel.usingExternal props).
  - unfold_call. destruct (Panel.onDecision props); simpl.
    + rewrite network_requests_app. simpl. apply app_nil_r.
    + rewrite Hguard. by destruct (Panel.usingExternal props).
  - intros Hnone. unfold_call. rewrite Hnone, Hguard.
    by destruct (Panel.usingExternal props).
  - unfold_call. by rewrite Hguard.
  - unfold_call. by rewrite Hguard.
Qed.

(** C9. When a decision handler of the host is supplied, [handleDecision]
    calls it with the approval id and the status and ends as the handler
    does: the state cells (collection, loading flag, error, updating marker)
    are as they were, and the call to the handler is the only event added to
    the trace, so no request is sent. *)
Theorem external_handler_takes_over (props : Panel.Props) (auth : Auth)
    (fetch : Request -> outcome (Response Approval))
    (approvalId : string) (status : Decision) (m : Machine)
    (handler : string -> Decision -> outcome unit)
    (Hhandler : Panel.onDecision props = Some handler) :
  let run := Panel.handleDecision props auth fetch approvalId status m in
  run.1 = handler approvalId status
  /\ panel run.2 = panel m
  /\ trace run.2 = (trace m ++ [Delegated approvalId status])%list
  /\ network_requests (trace run.2) = network_requests (trace m).
Proof.
  simpl. unfold_call. rewrite Hhandler. simpl.
  repeat apply conj; try done.
  rewrite network_requests_app. simpl. apply app_nil_r.
Qed.

End Calls.

(** ** Titles and summaries *)

Section Summaries.
Context `{Platform}.

(** [humanizeAction] title-cases the sample action type, and the flat
    revision keeps the dot of one. *)
Lemma humanizeAction_bytes :
  Panel.humanizeAction "task.assign_role"
  = "Task" +:+ middle_dot_separator +:+ "Assign Role".
Proof. reflexivity. Qed.

Example humanizeAction_one_segment : Panel.humanizeAction "deploy" = "Deploy".
Proof. reflexivity. Qed.

Example humanizeAction_words :
  Panel.humanizeAction "agent.create_sub_task" = "Agent · Create Sub Task".
Proof. reflexivity. Qed.

Example humanizeAction_digits : Panel.humanizeAction "x2.y_9z" = "X2 · Y 9z".
Proof. reflexivity. Qed.

Example humanizeAction_empty_segment : Panel.humanizeAction "task..x" = "Task ·  · X".
Proof. reflexivity. Qed.

Example includes_inside_word :
  JsString.includes "assign" "task.reassign_owner" = true
  /\ JsString.includes "assign" "task.create" = false.
Proof. split; reflexivity. Qed.

Lemma payloadValue_scalar (fields : gmap string JsValue) (key : string) :
  Panel.payloadValue (Some fields) key = fields !! key ≫= scalar_text.
Proof.
  unfold Panel.payloadValue.
  destruct (fields !! key) as [v|]; simpl; [|done]. by destruct v.
Qed.

Lemma payloadValue_present (a : Approval) (key text : string) (keys : list string) :
  key ∈ keys ->
  Panel.payloadValue (Some (default ∅ (payload a))) key = Some text ->
  present_under a keys text.
Proof.
  intros Hkey. rewrite payloadValue_scalar.
  destruct (payload a) as [fields|] eqn:Hp; simpl.
  - destruct (fields !! key) as [v|] eqn:Hv; simpl; [|done].
    intros Ht. by exists key, fields, v.
  - by rewrite lookup_empty.
Qed.

Lemma present_payloadValue (a : Approval) (keys : list string) (text : string) :
  present_under a keys text ->
  exists key, key ∈ keys
    /\ Panel.payloadValue (Some (default ∅ (payload a))) key = Some text.
Proof.
  intros (key & fields & v & Hkey & Hp & Hv & Ht).
  exists key. split; [done|].
  rewrite payloadValue_scalar, Hp. simpl. by rewrite Hv.
Qed.

Lemma truthy_opt_Some (x : option string) :
  Panel.truthy_opt x = true -> exists text, x = Some text /\ text <> "".
Proof.
  destruct x as [[|c s]|]; simpl; try done. intros _. by eexists.
Qed.

Lemma nullish_or_Some {A} (x y : option A) (v : A) :
  Panel.nullish_or x y = Some v -> x = Some v \/ y = Some v.
Proof. destruct x; simpl; auto. Qed.

(** The text of the Task row comes from one of the three task keys. *)
Lemma taskId_present (a : Approval) (text : string) :
  Panel.taskId (Panel.approvalSummary a) = Some text ->
  present_under a (accepted_keys "Task") text.
Proof.
  simpl. intros Hv.
  apply nullish_or_Some in Hv as [Hv|Hv];
    [|apply nullish_or_Some in Hv as [Hv|Hv]];
    (eapply payloadValue_present; [|exact Hv]); set_solver.
Qed.

(** A row other than the fallback of the Assignee row shows a string or a
    number of the payload, found under a key accepted for its label. *)
Lemma rows_sound (a : Approval) (r : Panel.Row) :
  r ∈ Panel.rows (Panel.approvalSummary a) ->
  r = {| Panel.label := "Assignee"; Panel.value := "Unassigned" |}
  \/ present_under a (accepted_keys (Panel.label r)) (Panel.value r).
Proof.
  pose proof (taskId_present a) as Htask.
  unfold Panel.approvalSummary in *. cbv zeta in *. cbn [Panel.rows Panel.taskId] in *.
  remember (Some (default ∅ (payload a))) as fields eqn:Hfields.
  remember (Panel.nullish_or (Panel.payloadValue fields "task_id") _) as task.
  remember (Panel.nullish_or (Panel.payloadValue fields "assigned_agent_id") _)
    as agent eqn:Hagent.
  remember (Panel.payloadValue fields "title") as title eqn:Htitle.
  remember (Panel.payloadValue fields "role") as role eqn:Hrole.
  assert (forall key text keys, key ∈ keys ->
            Panel.payloadValue fields key = Some text -> present_under a keys text)
    as Hpresent by (subst fields; intros; by eapply payloadValue_present).
  clear Hfields Heqtask.
  destruct (Panel.truthy_opt task) eqn:Ht;
    destruct (JsString.includes "assign" (action_type a));
    destruct (Panel.truthy_opt title) eqn:Hti;
    destruct (Panel.truthy_opt role) eqn:Hro;
    cbn [app]; intros Hr;
    repeat (apply elem_of_cons in Hr as [->|Hr]);
    try (by apply elem_of_nil in Hr); cbn [Panel.label Panel.value].
  all: try (right; apply truthy_opt_Some in Ht as (text & -> & _);
            by apply Htask).
  all: try (right; apply truthy_opt_Some in Hti as (text & Heq & _);
            rewrite Heq; rewrite Heq in Htitle;
            apply (Hpresent "title"); [set_solver|done]).
  all: try (right; apply truthy_opt_Some in Hro as (text & Heq & _);
            rewrite Heq; rewrite Heq in Hrole;
            apply (Hpresent "role"); [set_solver|done]).
  all: destruct agent as [text|]; [right|by left].
  all: symmetry in Hagent; apply nullish_or_Some in Hagent as [Hv|Hv];
    [apply (Hpresent "assigned_agent_id")|apply (Hpresent "assignedAgentId")];
    first [done|set_solver].
Qed.

(** The lookup of the assignee id, as [approvalSummary] does it. *)
Lemma assignee_row (a : Approval) :
  JsString.includes "assign" (action_type a) = true ->
  {| Panel.label := "Assignee";
     Panel.value :=
       default "Unassigned"
         (Panel.nullish_or
            (Panel.payloadValue (Some (default ∅ (payload a))) "assigned_agent_id")
            (Panel.payloadValue (Some (default ∅ (payload a))) "assignedAgentId")) |}
  ∈ Panel.rows (Panel.approvalSummary a).
Proof.
  intros Hassign. unfold Panel.approvalSummary. cbv zeta. cbn [Panel.rows].
  rewrite Hassign.
  destruct (Panel.truthy_opt (Panel.nullish_or _ _));
    destruct (Panel.truthy_opt (Panel.payloadValue _ "title"));
    destruct (Panel.truthy_opt (Panel.payloadValue _ "role"));
    cbn [app]; set_solver.
Qed.

Lemma assignee_absent (a : Approval) :
  Panel.nullish_or
    (Panel.payloadValue (Some (default ∅ (payload a))) "assigned_agent_id")
    (Panel.payloadValue (Some (default ∅ (payload a))) "assignedAgentId") = None ->
  forall text, ~ present_under a (accepted_keys "Assignee") text.
Proof.
  intros Hnone text Hp.
  apply present_payloadValue in Hp as (key & Hkey & Hv).
  apply elem_of_cons in Hkey as [->|Hkey];
    [|apply elem_of_cons in Hkey as [->|Hkey]; [|by apply elem_of_nil in Hkey]];
    rewrite Hv in Hnone; [done|].
  by destruct (Panel.payloadValue _ "assigned_agent_id").
Qed.

Lemma first_scalar_cons (fields : gmap string JsValue) (key : string)
    (rest : list string) :
  Panel.nullish_or (Panel.payloadValue (Some fields) key) (first_scalar fields rest)
  = first_scalar fields (key :: rest).
Proof.
  rewrite payloadValue_scalar. cbn [first_scalar].
  by destruct (fields !! key ≫= scalar_text).
Qed.

Lemma first_scalar_one (fields : gmap string JsValue) (key : string) :
  Panel.payloadValue (Some fields) key = first_scalar fields [key].
Proof.
  rewrite payloadValue_scalar. cbn [first_scalar].
  by destruct (fields !! key ≫= scalar_text).
Qed.

Lemma first_scalar_present (a : Approval) (keys : list string) (text : string) :
  first_scalar (default ∅ (payload a)) keys = Some text ->
  present_under a keys text.
Proof.
  induction keys as [|key rest IH]; [done|].
  cbn [first_scalar].
  destruct (default ∅ (payload a) !! key ≫= scalar_text) as [t|] eqn:Hkey.
  - intros [= <-]. apply (payloadValue_present a key); [set_solver|].
    by rewrite payloadValue_scalar.
  - intros Hrest. destruct (IH Hrest) as (k & fields & v & Hk & Hrestp).
    exists k, fields, v. split; [apply elem_of_cons; by right|done].
Qed.

Lemma first_scalar_absent (a : Approval) (keys : list string) :
  first_scalar (default ∅ (payload a)) keys = None ->
  forall text, ~ present_under a keys text.
Proof.
  induction keys as [|key rest IH]; intros Hnone text (k & fields & v & Hk & Hp & Hv & Ht).
  - by apply elem_of_nil in Hk.
  - cbn [first_scalar] in Hnone.
    destruct (default ∅ (payload a) !! key ≫= scalar_text) as [t|] eqn:Hkey; [done|].
    apply elem_of_cons in Hk as [->|Hk].
    + rewrite Hp in Hkey. simpl in Hkey. rewrite Hv in Hkey. simpl in Hkey. congruence.
    + apply (IH Hnone text). by exists k, fields, v.
Qed.

Lemma push_if {A : Type} (c : bool) (l : list A) (r : A) :
  (if c then (l ++ [r])%list else l) = (l ++ (if c then [r] else []))%list.
Proof. destruct c; [done|]. by rewrite app_nil_r. Qed.

Lemma optional_row_if (row_label : string) (x : option string) :
  (if Panel.truthy_opt x
   then [ {| Panel.label := row_label; Panel.value := default "" x |} ] else [])
  = optional_row row_label x.
Proof. by destruct x as [[|c s]|]. Qed.

(** [approvalSummary] in terms of the first string or number found under
    the spellings of each field. *)
Lemma approvalSummary_fields (a : Approval) :
  let field := first_scalar (default ∅ (payload a)) in
  Panel.approvalSummary a
  = {| Panel.taskId := field ["task_id"; "taskId"; "taskID"];
       Panel.reason := field ["reason"];
       Panel.rows :=
         (optional_row "Task" (field ["task_id"; "taskId"; "taskID"])
          ++ (if JsString.includes "assign" (action_type a)
              then [ {| Panel.label := "Assignee";
                        Panel.value :=
                          default "Unassigned"
                            (field ["assigned_agent_id"; "assignedAgentId"]) |} ]
              else [])
          ++ optional_row "Title" (field ["title"])
          ++ optional_row "Role" (field ["role"]))%list |}.
Proof.
  cbv zeta. unfold Panel.approvalSummary. cbv zeta.
  rewrite !push_if, !optional_row_if.
  rewrite !(first_scalar_one _ "taskID"), !(first_scalar_one _ "assignedAgentId"),
    !(first_scalar_one _ "reason"), !(first_scalar_one _ "title"),
    !(first_scalar_one _ "role").
  rewrite !first_scalar_cons.
  cbn [app]. by rewrite <- !app_assoc.
Qed.

(** C7 (amended). For an approval whose action type contains ["assign"], the
    summary reads the task id under [task_id], [taskId] or [taskID], the
    assignee id under [assigned_agent_id] or [assignedAgentId], and the
    title, the role and the reason under [title], [role] and [reason]: each
    field is the first string or number that the payload holds under its
    spellings, which is a value present in the payload, and no value is
    present when none is found. The rows are, in this order, the Task row
    when the task id is found and not empty, the Assignee row, the Title row
    and the Role row when the title or the role is found and not empty. So a
    row other than the Assignee row shows a string or number that the
    payload holds under a key accepted for its label, and so do the task id
    and the reason of the summary. The Assignee row is always there: it
    shows the assignee id of the payload, or ["Unassigned"] when the payload
    holds none. *)
Theorem assignment_summary_rows (a : Approval)
    (Hassign : JsString.includes "assign" (action_type a) = true) :
  let summary := Panel.approvalSummary a in
  let field := first_scalar (default ∅ (payload a)) in
  (Panel.taskId summary = field ["task_id"; "taskId"; "taskID"]
   /\ Panel.reason summary = field ["reason"]
   /\ Panel.rows summary
      = (optional_row "Task" (field ["task_id"; "taskId"; "taskID"])
         ++ [ {| Panel.label := "Assignee";
                 Panel.value :=
                   default "Unassigned"
                     (field ["assigned_agent_id"; "assignedAgentId"]) |} ]
         ++ optional_row "Title" (field ["title"])
         ++ optional_row "Role" (field ["role"]))%list
   /\ (forall keys text, field keys = Some text -> present_under a keys text)
   /\ (forall keys, field keys = None -> forall text, ~ present_under a keys text))
  /\ (forall r, r ∈ Panel.rows summary -> Panel.label r <> "Assignee" ->
        present_under a (accepted_keys (Panel.label r)) (Panel.value r))
  /\ (exists text,
        {| Panel.label := "Assignee"; Panel.value := text |} ∈ Panel.rows summary
        /\ (present_under a (accepted_keys "Assignee") text
            \/ text = "Unassigned"
               /\ forall t, ~ present_under a (accepted_keys "Assignee") t))
  /\ (forall text, Panel.reason summary = Some text -> present_under a ["reason"] text)
  /\ (forall text, Panel.taskId summary = Some text ->
        present_under a (accepted_keys "Task") text).
Proof.
  cbv zeta. split; [|split; [|split; [|split]]].
  - pose proof (approvalSummary_fields a) as Hsummary. cbv zeta in Hsummary.
    rewrite Hassign in Hsummary. rewrite Hsummary. cbn [Panel.taskId Panel.reason Panel.rows].
    split; [done|]. split; [done|]. split; [done|].
    split; [apply first_scalar_present|apply first_scalar_absent].
  - intros r Hr Hlabel. destruct (rows_sound a r Hr) as [->|Hp]; done.
  - pose proof (assignee_row a Hassign) as Hrow.
    pose proof (assignee_absent a) as Habsent.
    destruct (Panel.nullish_or _ _) as [text|] eqn:Hagent.
    + exists text. split; [done|]. left.
      apply nullish_or_Some in Hagent as [Hv|Hv];
        (eapply payloadValue_present; [|exact Hv]); set_solver.
    + exists "Unassigned". split; [done|]. right. split; [done|]. by apply Habsent.
  - intros text Hv. eapply payloadValue_present; [|exact Hv]. set_solver.
  - apply taskId_present.
Qed.

Lemma payloadValue_scalars_filter (a : Approval) (key : string) :
  Panel.payloadValue (Some (default ∅ (payload (scalars_only a)))) key
  = Panel.payloadValue (Some (default ∅ (payload a))) key.
Proof.
  rewrite !payloadValue_scalar. simpl.
  destruct (payload a) as [fields|]; simpl; [|done].
  rewrite map_lookup_filter.
  destruct (fields !! key) as [v|]; simpl; [|done].
  case_guard as Hs; simpl; [done|].
  destruct (scalar_text v) eqn:Hv; [|done]. destruct Hs. by eexists.
Qed.

(** C10. [payloadValue] gives [null] when there is no payload, when the key
    is not in it, and when the value under the key is neither a string nor a
    number; it gives the string itself for a string and [String(n)] for a
    number. So the summary of an approval is the summary of the approval
    with only the strings and numbers of its payload kept, and every row is
    the fallback of the Assignee row or shows a string or number of the
    payload. *)
Theorem payloadValue_only_scalars :
  (forall key, Panel.payloadValue None key = None)
  /\ (forall fields key, fields !! key = None ->
        Panel.payloadValue (Some fields) key = None)
  /\ (forall fields key v, fields !! key = Some v ->
        typeof v <> "string" -> typeof v <> "number" ->
        Panel.payloadValue (Some fields) key = None)
  /\ (forall fields key s, fields !! key = Some (JStr s) ->
        Panel.payloadValue (Some fields) key = Some s)
  /\ (forall fields key n, fields !! key = Some (JNum n) ->
        Panel.payloadValue (Some fields) key = Some (Number_toString n))
  /\ (forall a, Panel.approvalSummary (scalars_only a) = Panel.approvalSummary a)
  /\ (forall a r, r ∈ Panel.rows (Panel.approvalSummary a) ->
        r = {| Panel.label := "Assignee"; Panel.value := "Unassigned" |}
        \/ present_under a (accepted_keys (Panel.label r)) (Panel.value r)).
Proof.
  repeat apply conj.
  - done.
  - intros fields key Hk. by rewrite payloadValue_scalar, Hk.
  - intros fields key v Hk Hs Hn. rewrite payloadValue_scalar, Hk.
    by destruct v.
  - intros fields key s0 Hk. by rewrite payloadValue_scalar, Hk.
  - intros fields key n Hk. by rewrite payloadValue_scalar, Hk.
  - intros a. unfold Panel.approvalSummary. cbv zeta.
    rewrite !payloadValue_scalars_filter. done.
  - apply rows_sound.
Qed.

(** C6 (amended). The title-cased variant turns ["task.assign_role"] into
    ["Task · Assign Role"]; the variant that only replaces underscores keeps
    the dot and gives ["task.assign role"]. *)
Theorem humanized_titles :
  Panel.humanizeAction "task.assign_role" = "Task · Assign Role"
  /\ SimplePanel.action_title "task.assign_role" = "task.assign role".
Proof. split; reflexivity. Qed.

(** The flat revision does not give the title C6 states for it. *)
Lemma simple_title_keeps_dot :
  ~ (Panel.humanizeAction "task.assign_role" = "Task · Assign Role"
     /\ SimplePanel.action_title "task.assign_role" = "task assign role").
Proof. intros [_ Hs]. discriminate Hs. Qed.

End Summaries.

(** ** More on the presenter *)

Section SortMore.
Context {A : Type} (comparefn : A -> A -> option Z).

(** Sorting keeps the order of the elements of a class that the comparison
    does not tell apart. *)
Lemma insert_filter (p : A -> bool) (x : A) (l : list A) :
  (forall y, p x = true -> p y = true -> JsArray.SortCompare comparefn x y <= 0) ->
  List.filter p (JsArray.insert comparefn x l) = List.filter p (x :: l).
Proof.
  intros Hclass. induction l as [|y l IH]; [done|].
  cbn [JsArray.insert].
  destruct (Z.leb_spec (JsArray.SortCompare comparefn x y) 0) as [Hle|Hgt]; [done|].
  cbn [List.filter] in *. rewrite IH.
  destruct (p x) eqn:Hx; [|done].
  destruct (p y) eqn:Hy; [|done].
  specialize (Hclass y eq_refl Hy). lia.
Qed.

Lemma sort_filter (p : A -> bool) (l : list A) :
  (forall x y, p x = true -> p y = true -> JsArray.SortCompare comparefn x y <= 0) ->
  List.filter p (JsArray.sort comparefn l) = List.filter p l.
Proof.
  intros Hclass. induction l as [|x l IH]; [done|].
  cbn [JsArray.sort foldr]. rewrite insert_filter by (intros; by apply Hclass).
  cbn [List.filter]. unfold JsArray.sort in IH. by rewrite IH.
Qed.

(** A list whose neighbours are in the order of the comparison is left as
    it is. *)
Lemma sort_sorted_id (l : list A) :
  Sorted (fun x y => JsArray.SortCompare comparefn x y <= 0) l ->
  JsArray.sort comparefn l = l.
Proof.
  induction 1 as [|x l Hl IH Hx]; [done|].
  cbn [JsArray.sort foldr]. unfold JsArray.sort in IH. rewrite IH.
  destruct Hx as [|y l Hxy]; [done|].
  cbn [JsArray.insert]. by destruct (Z.leb_spec (JsArray.SortCompare comparefn x y) 0); [|lia].
Qed.

End SortMore.

Section PresenterMore.
Context `{Platform}.

Lemma sortByTime_Permutation (items : list Approval) :
  Panel.sortByTime items ≡ₚ items.
Proof. apply sort_Permutation. Qed.

Lemma sortByTime_compare_sorted (items : list Approval) :
  Sorted (fun a b =>
            JsArray.SortCompare
              (fun a b => time_sub (Date_getTime (created_at b))
                            (Date_getTime (created_at a))) a b <= 0)
    (Panel.sortByTime items).
Proof.
  apply sort_Sorted; [done|].
  intros x y. unfold JsArray.SortCompare.
  destruct (Date_getTime (created_at x)), (Date_getTime (created_at y)); simpl; lia.
Qed.

Lemma sortByTime_idempotent (items : list Approval) :
  Panel.sortByTime (Panel.sortByTime items) = Panel.sortByTime items.
Proof. apply sort_sorted_id, sortByTime_compare_sorted. Qed.

Lemma filter_all {B} (f : B -> bool) (l : list B) :
  Forall (fun x => f x = true) l -> List.filter f l = l.
Proof.
  induction 1 as [|x l Hx _ IH]; [done|]. cbn [List.filter]. by rewrite Hx, IH.
Qed.

Lemma filter_none {B} (f : B -> bool) (l : list B) :
  Forall (fun x => f x = false) l -> List.filter f l = [].
Proof.
  induction 1 as [|x l Hx _ IH]; [done|]. cbn [List.filter]. by rewrite Hx, IH.
Qed.

Lemma sort_filter_Forall (f : Approval -> bool) (l : list Approval) :
  Forall (fun x => f x = true) (Panel.sortByTime (List.filter f l)).
Proof.
  apply Forall_forall. intros a Ha.
  unfold Panel.sortByTime in Ha. apply elem_of_sort_filter in Ha. tauto.
Qed.

(** X1. When every creation time of the collection parses, the presenter
    applied to its own output gives it back: the pending partition followed
    by the resolved one, partitioned and sorted again, is the same two
    partitions, and the flat list of the other revision is a fixed point of
    its presenter. *)
Theorem sortedApprovals_idempotent (approvals : list Approval)
    (Hparsed : Forall (fun a => is_Some (Date_getTime (created_at a))) approvals) :
  let parts := Panel.sortedApprovals approvals in
  Forall (fun a => is_Some (Date_getTime (created_at a)))
    (Panel.pending parts ++ Panel.resolved parts)%list
  /\ Panel.sortedApprovals (Panel.pending parts ++ Panel.resolved parts)%list = parts
  /\ SimplePanel.sortedApprovals (SimplePanel.sortedApprovals approvals)
     = SimplePanel.sortedApprovals approvals.
Proof.
  cbv zeta.
  assert (Panel.sortedApprovals
            (Panel.pending (Panel.sortedApprovals approvals)
             ++ Panel.resolved (Panel.sortedApprovals approvals))%list
          = Panel.sortedApprovals approvals) as Hfix.
  { unfold Panel.sortedApprovals. cbn [Panel.pending Panel.resolved].
    set (is_pending := fun item : Approval => String.eqb (status item) "pending").
    set (is_resolved := fun item : Approval => negb (String.eqb (status item) "pending")).
    pose proof (sort_filter_Forall is_pending approvals) as HP.
    pose proof (sort_filter_Forall is_resolved approvals) as HQ.
    rewrite !List.filter_app.
    rewrite (filter_all is_pending _ HP), (filter_all is_resolved _ HQ).
    rewrite (filter_none is_pending (Panel.sortByTime (List.filter is_resolved approvals))).
    2:{ eapply Forall_impl; [exact HQ|]. intros a. unfold is_resolved, is_pending.
        by destruct (String.eqb _ _). }
    rewrite (filter_none is_resolved (Panel.sortByTime (List.filter is_pending approvals))).
    2:{ eapply Forall_impl; [exact HP|]. intros a. unfold is_resolved, is_pending.
        by intros ->. }
    rewrite app_nil_r. cbn [app]. by rewrite !sortByTime_idempotent. }
  split; [|split; [exact Hfix|]].
  - unfold Panel.sortedApprovals. cbn [Panel.pending Panel.resolved].
    rewrite !sortByTime_Permutation, filter_negb_Permutation. exact Hparsed.
  - rewrite !simple_sortedApprovals. by rewrite Hfix.
Qed.

(** X2. When every creation time of a list parses, sorting is stable: the
    records that share a creation time come out in the order they have in
    the list. *)
Theorem sortByTime_stable (items : list Approval) (time : Z)
    (Hparsed : Forall (fun a => is_Some (Date_getTime (created_at a))) items) :
  List.filter (fun a => bool_decide (Date_getTime (created_at a) = Some time))
    (Panel.sortByTime items)
  = List.filter (fun a => bool_decide (Date_getTime (created_at a) = Some time)) items.
Proof.
  apply sort_filter. intros x y Hx Hy.
  apply bool_decide_eq_true in Hx, Hy. unfold JsArray.SortCompare.
  rewrite Hx, Hy. simpl. lia.
Qed.

(** X3. When every creation time of a list parses, the sorted list is
    descending throughout: an entry is at least as recent as every entry
    after it. *)
Theorem sortByTime_descending (items : list Approval) (i j : nat) (a b : Approval)
    (ta tb : Z)
    (Hparsed : Forall (fun a => is_Some (Date_getTime (created_at a))) items)
    (Hij : (i < j)%nat)
    (Hi : Panel.sortByTime items !! i = Some a)
    (Hj : Panel.sortByTime items !! j = Some b)
    (Ha : Date_getTime (created_at a) = Some ta)
    (Hb : Date_getTime (created_at b) = Some tb) :
  tb <= ta.
Proof.
  pose proof (sortByTime_all_parsed items Hparsed) as Hsorted.
  revert i j Hij Hi Hj.
  induction Hsorted as [|x l Hl IH Hx]; intros i j Hij Hi Hj; [done|].
  destruct j as [|j]; [lia|]. cbn in Hj.
  destruct i as [|i]; cbn in Hi.
  - simplify_eq. apply list_elem_of_lookup_2 in Hj.
    rewrite Forall_forall in Hx. by apply (Hx b Hj ta tb).
  - apply (IH i j); [lia|done|done].
Qed.

(** When the ids of the collection are distinct, so are the ids along the
    two partitions. *)
Lemma partition_keys_distinct (approvals : list Approval)
    (Hids : NoDup (id <$> approvals)) :
  let parts := Panel.sortedApprovals approvals in
  NoDup (id <$> (Panel.pending parts ++ Panel.resolved parts)%list)
  /\ NoDup (id <$> SimplePanel.sortedApprovals approvals).
Proof.
  cbv zeta. rewrite simple_sortedApprovals.
  assert ((Panel.pending (Panel.sortedApprovals approvals)
           ++ Panel.resolved (Panel.sortedApprovals approvals))%list ≡ₚ approvals)
    as Hperm.
  { unfold Panel.sortedApprovals. cbn [Panel.pending Panel.resolved].
    rewrite !sortByTime_Permutation. apply filter_negb_Permutation. }
  by rewrite Hperm.
Qed.

End PresenterMore.

(** ** More on the fetcher and the decision submitter *)

Section CallsMore.
Context `{Platform}.

Lemma self_managed_guard (props : Panel.Props) (auth : Auth) :
  self_managed props auth ->
  Panel.onDecision props = None
  /\ Panel.usingExternal props = false
  /\ negb (isSignedIn auth) || negb (JsString.truthy (Panel.boardId props)) = false.
Proof.
  intros (Hnone & Hext & Hsigned & Hboard).
  split; [done|]. split; [unfold Panel.usingExternal; by rewrite Hext|].
  by apply guard_open.
Qed.

(** A request fails exactly when it brings no body back. *)
Lemma request_body_None {B : Type} (auth : Auth)
    (fetch : Request -> outcome (Response B)) (request : string -> Request)
    (not_ok : string) :
  request_body auth fetch request = None
  <-> exists e, request_fails auth fetch request not_ok e.
Proof.
  unfold request_body. split.
  - destruct (getToken auth) as [token|e] eqn:Ht; [|intros _; eexists; by eapply token_throws].
    destruct (fetch _) as [res|e] eqn:Hf; [|intros _; eexists; by eapply fetch_throws].
    destruct (ok res) eqn:Hok; [|intros _; eexists; by eapply response_not_ok].
    destruct (json res) as [body|e] eqn:Hj; [done|].
    intros _. eexists. by eapply body_throws.
  - intros [e [e' He | token e' Ht Hf | token res Ht Hf Hok | token res e' Ht Hf Hok Hj]];
      rewrite ?He, ?Ht, ?Hf, ?Hok, ?Hj; done.
Qed.

(** The collection after a call of [loadApprovals] that goes out. *)
Lemma loadApprovals_collection (props : Panel.Props) (auth : Auth)
    (fetch : Request -> outcome (Response (list Approval))) (m : Machine) :
  Panel.usingExternal props = false ->
  negb (isSignedIn auth) || negb (JsString.truthy (Panel.boardId props)) = false ->
  internalApprovals (panel (Panel.loadApprovals props auth fetch m).2)
  = default (internalApprovals (panel m)) (request_body auth fetch (load_request props)).
Proof.
  intros Hext Hguard. unfold request_body. unfold_call. rewrite Hext, Hguard.
  destruct (getToken auth) as [token|]; simpl; [|done].
  destruct (fetch _) as [res|]; simpl; [|done].
  destruct (ok res); simpl; [|done]. by destruct (json res).
Qed.

(** The collection after a call of [handleDecision] that goes out. *)
Lemma handleDecision_collection (props : Panel.Props) (auth : Auth)
    (fetch : Request -> outcome (Response Approval))
    (approvalId : string) (status : Decision) (m : Machine) :
  self_managed props auth ->
  internalApprovals (panel (Panel.handleDecision props auth fetch approvalId status m).2)
  = match request_body auth fetch (decision_request props approvalId status) with
    | Some updated =>
        List.map (fun item => if String.eqb (id item) approvalId then updated else item)
          (internalApprovals (panel m))
    | None => internalApprovals (panel m)
    end.
Proof.
  intros (Hnone & Hext & Hguard)%self_managed_guard.
  unfold request_body. unfold_call. rewrite Hnone, Hext, Hguard.
  destruct (getToken auth) as [token|]; simpl; [|done].
  destruct (fetch _) as [res|]; simpl; [|done].
  destruct (ok res); simpl; [|done]. by destruct (json res).
Qed.

(** A call of [handleDecision] that does not go out leaves the state cells. *)
Lemma handleDecision_stays_in (props : Panel.Props) (auth : Auth)
    (fetch : Request -> outcome (Response Approval))
    (approvalId : string) (status : Decision) (m : Machine) :
  ~ self_managed props auth ->
  panel (Panel.handleDecision props auth fetch approvalId status m).2 = panel m.
Proof.
  intros Hnot. unfold_call.
  destruct (Panel.onDecision props) eqn:Hh; [done|].
  unfold Panel.usingExternal.
  destruct (Panel.externalApprovals props) eqn:Hx; [done|].
  destruct (isSignedIn auth) eqn:Hs; [|done].
  destruct (Panel.boardId props) as [|c b] eqn:Hb; [done|].
  destruct Hnot. repeat split; try done. by rewrite Hb.
Qed.

Lemma self_managed_dec (props : Panel.Props) (auth : Auth) :
  self_managed props auth \/ ~ self_managed props auth.
Proof.
  unfold self_managed.
  destruct (Panel.onDecision props); [right; by intros (? & _)|].
  destruct (Panel.externalApprovals props); [right; by intros (_ & ? & _)|].
  destruct (isSignedIn auth); [|right; by intros (_ & _ & ? & _)].
  destruct (Panel.boardId props); [right; by intros (_ & _ & _ & ?)|].
  left. by repeat split.
Qed.

Lemma simple_handleDecision (props : Panel.Props) (auth : Auth)
    (fetch : Request -> outcome (Response Approval))
    (approvalId : string) (status : Decision) :
  Panel.onDecision props = None ->
  Panel.usingExternal props = false ->
  SimplePanel.handleDecision (simple_of props) auth fetch approvalId status
  = Panel.handleDecision props auth fetch approvalId status.
Proof.
  intros Hnone Hext. unfold Panel.handleDecision. rewrite Hnone, Hext. reflexivity.
Qed.

Lemma simple_loadApprovals (props : Panel.Props) (auth : Auth)
    (fetch : Request -> outcome (Response (list Approval))) :
  Panel.usingExternal props = false ->
  SimplePanel.loadApprovals (simple_of props) auth fetch
  = Panel.loadApprovals props auth fetch.
Proof.
  intros Hext. unfold Panel.loadApprovals. rewrite Hext. reflexivity.
Qed.

Lemma replace_map_idempotent (approvalId : string) (updated : Approval)
    (l : list Approval) :
  let f := fun item : Approval =>
             if String.eqb (id item) approvalId then updated else item in
  List.map f (List.map f l) = List.map f l.
Proof.
  cbv zeta. rewrite List.map_map. apply List.map_ext. intros item.
  destruct (String.eqb (id item) approvalId) eqn:Hid; [|by rewrite Hid].
  by destruct (String.eqb (id updated) approvalId).
Qed.

Lemma replace_maps_commute (id1 id2 : string) (u1 u2 : Approval) (l : list Approval) :
  id1 <> id2 -> id u1 = id1 -> id u2 = id2 ->
  List.map (fun item => if String.eqb (id item) id2 then u2 else item)
    (List.map (fun item => if String.eqb (id item) id1 then u1 else item) l)
  = List.map (fun item => if String.eqb (id item) id1 then u1 else item)
      (List.map (fun item => if String.eqb (id item) id2 then u2 else item) l).
Proof.
  intros Hne H1 H2. rewrite !List.map_map. apply List.map_ext. intros item.
  destruct (String.eqb_spec (id item) id1) as [Hi1|Hi1];
    destruct (String.eqb_spec (id item) id2) as [Hi2|Hi2]; try congruence.
  all: rewrite ?H1, ?H2.
  all: repeat match goal with
         | |- context [String.eqb ?x ?y] => destruct (String.eqb_spec x y)
         end; congruence.
Qed.

Lemma simple_of_plain (sp : SimplePanel.Props) : simple_of (plain_of sp) = sp.
Proof. by destruct sp. Qed.

Lemma plain_self_managed (sp : SimplePanel.Props) (auth : Auth) :
  isSignedIn auth = true -> SimplePanel.boardId sp <> "" ->
  self_managed (plain_of sp) auth.
Proof. by repeat split. Qed.

Lemma simple_handleDecision_plain (sp : SimplePanel.Props) (auth : Auth)
    (fetch : Request -> outcome (Response Approval))
    (approvalId : string) (status : Decision) :
  SimplePanel.handleDecision sp auth fetch approvalId status
  = Panel.handleDecision (plain_of sp) auth fetch approvalId status.
Proof. by destruct sp. Qed.

Lemma simple_loadApprovals_plain (sp : SimplePanel.Props) (auth : Auth)
    (fetch : Request -> outcome (Response (list Approval))) :
  SimplePanel.loadApprovals sp auth fetch = Panel.loadApprovals (plain_of sp) auth fetch.
Proof. by destruct sp. Qed.


(** X5. A call of [loadApprovals] never rejects, whatever the outside
    answers: it returns, it leaves the updating marker alone, and it either
    leaves the machine as it was or ends with the loading flag down. Both
    revisions. *)
Theorem loadApprovals_settles (props : Panel.Props) (sp : SimplePanel.Props)
    (auth : Auth) (fetch : Request -> outcome (Response (list Approval)))
    (m : Machine) :
  let run := Panel.loadApprovals props auth fetch m in
  let run_simple := SimplePanel.loadApprovals sp auth fetch m in
  (run.1 = Returned tt
   /\ updatingId (panel run.2) = updatingId (panel m)
   /\ (run.2 = m \/ isLoading (panel run.2) = false))
  /\ (run_simple.1 = Returned tt
      /\ updatingId (panel run_simple.2) = updatingId (panel m)
      /\ (run_simple.2 = m \/ isLoading (panel run_simple.2) = false)).
Proof.
  assert (forall p, let run := Panel.loadApprovals p auth fetch m in
            run.1 = Returned tt
            /\ updatingId (panel run.2) = updatingId (panel m)
            /\ (run.2 = m \/ isLoading (panel run.2) = false)) as Hpanel.
  { intros p. cbv zeta. unfold_call.
    destruct (Panel.usingExternal p); [by auto|].
    destruct (negb (isSignedIn auth) || negb (JsString.truthy (Panel.boardId p)));
      [by auto|].
    destruct (getToken auth) as [token|]; simpl; [|by auto].
    destruct (fetch _) as [res|]; simpl; [|by auto].
    destruct (ok res); simpl; [|by auto].
    destruct (json res); simpl; by auto. }
  cbv zeta. split; [apply Hpanel|].
  rewrite simple_loadApprovals_plain. apply Hpanel.
Qed.

(** X6. A call of [handleDecision] that the component handles itself never
    rejects, and no call of [handleDecision] touches the loading flag or
    adds or removes an entry of the collection, whatever the outside
    answers. Both revisions. *)
Theorem handleDecision_settles (props : Panel.Props) (sp : SimplePanel.Props)
    (auth : Auth) (fetch : Request -> outcome (Response Approval))
    (approvalId : string) (status : Decision) (m : Machine) :
  let run := Panel.handleDecision props auth fetch approvalId status m in
  let run_simple := SimplePanel.handleDecision sp auth fetch approvalId status m in
  ((Panel.onDecision props = None -> run.1 = Returned tt)
   /\ isLoading (panel run.2) = isLoading (panel m)
   /\ List.length (internalApprovals (panel run.2))
      = List.length (internalApprovals (panel m)))
  /\ (run_simple.1 = Returned tt
      /\ isLoading (panel run_simple.2) = isLoading (panel m)
      /\ List.length (internalApprovals (panel run_simple.2))
         = List.length (internalApprovals (panel m))).
Proof.
  assert (forall p, let run := Panel.handleDecision p auth fetch approvalId status m in
            (Panel.onDecision p = None -> run.1 = Returned tt)
            /\ isLoading (panel run.2) = isLoading (panel m)
            /\ List.length (internalApprovals (panel run.2))
               = List.length (internalApprovals (panel m))) as Hpanel.
  { intros p. cbv zeta. unfold_call.
    destruct (Panel.onDecision p); [done|].
    destruct (Panel.usingExternal p); [done|].
    destruct (negb (isSignedIn auth) || negb (JsString.truthy (Panel.boardId p)));
      [done|].
    destruct (getToken auth) as [token|]; simpl; [|done].
    destruct (fetch _) as [res|]; simpl; [|done].
    destruct (ok res); simpl; [|done].
    destruct (json res); simpl; [|done].
    by rewrite length_map. }
  cbv zeta. split; [apply Hpanel|].
  rewrite simple_handleDecision_plain.
  destruct (Hpanel (plain_of sp)) as (Hret & Hrest). split; [by apply Hret|done].
Qed.

(** X7. A call sends at most one request. [loadApprovals] sends nothing or
    the [GET] of the approvals of the board, and [handleDecision] nothing or
    the [PATCH] of the target approval with the chosen status, each with the
    header made from the token; and a call that the component handles itself
    with a token at hand does send it. [loadApprovals] calls no handler of
    the host. *)
Theorem calls_send_one_request (props : Panel.Props) (auth : Auth)
    (fetch_list : Request -> outcome (Response (list Approval)))
    (fetch_one : Request -> outcome (Response Approval))
    (approvalId : string) (status : Decision) (m : Machine) :
  let load := (Panel.loadApprovals props auth fetch_list m).2 in
  let decide := (Panel.handleDecision props auth fetch_one approvalId status m).2 in
  (trace load = trace m
   \/ exists token, getToken auth = Returned token
        /\ trace load
           = (trace m
              ++ [NetworkRequest (load_request props (authorization_header token))])%list)
  /\ (network_requests (trace decide) = network_requests (trace m)
      \/ exists token, getToken auth = Returned token
           /\ network_requests (trace decide)
              = (network_requests (trace m)
                 ++ [decision_request props approvalId status
                       (authorization_header token)])%list)
  /\ (forall token, self_managed props auth -> getToken auth = Returned token ->
        trace load
        = (trace m ++ [NetworkRequest (load_request props (authorization_header token))])%list
        /\ trace decide
           = (trace m
              ++ [NetworkRequest
                    (decision_request props approvalId status
                       (authorization_header token))])%list).
Proof.
  cbv zeta. split; [|split].
  - unfold_call.
    destruct (Panel.usingExternal props); [by left|].
    destruct (negb (isSignedIn auth) || negb (JsString.truthy (Panel.boardId props)));
      [by left|].
    destruct (getToken auth) as [token|]; simpl; [|by left].
    right. exists token. split; [done|].
    destruct (fetch_list _) as [res|]; simpl; [|done].
    destruct (ok res); simpl; [|done]. by destruct (json res).
  - unfold_call.
    destruct (Panel.onDecision props); simpl.
    { left. rewrite network_requests_app. simpl. apply app_nil_r. }
    destruct (Panel.usingExternal props); [by left|].
    destruct (negb (isSignedIn auth) || negb (JsString.truthy (Panel.boardId props)));
      [by left|].
    destruct (getToken auth) as [token|]; simpl; [|by left].
    right. exists token. split; [done|].
    destruct (fetch_one _) as [res|]; simpl;
      [destruct (ok res); simpl; [destruct (json res); simpl|]|];
      by rewrite network_requests_app.
  - intros token (Hnone & Hext & Hguard)%self_managed_guard Htoken.
    unfold_call. rewrite Hnone, Hext, Hguard, Htoken. simpl. split.
    + destruct (fetch_list _) as [res|]; simpl; [|done].
      destruct (ok res); simpl; [|done]. by destruct (json res).
    + destruct (fetch_one _) as [res|]; simpl; [|done].
      destruct (ok res); simpl; [|done]. by destruct (json res).
Qed.



(** X10. A decision on an id that no record of the collection has leaves
    the collection as it is, whatever the outside answers: the record the
    server returns is not added. Both revisions. *)
Theorem decision_on_unknown_id (props : Panel.Props) (sp : SimplePanel.Props)
    (auth : Auth) (fetch : Request -> outcome (Response Approval))
    (approvalId : string) (status : Decision) (m : Machine)
    (Hunknown : Forall (fun item => id item <> approvalId) (internalApprovals (panel m))) :
  internalApprovals (panel (Panel.handleDecision props auth fetch approvalId status m).2)
  = internalApprovals (panel m)
  /\ internalApprovals
       (panel (SimplePanel.handleDecision sp auth fetch approvalId status m).2)
     = internalApprovals (panel m).
Proof.
  assert (forall p,
            internalApprovals
              (panel (Panel.handleDecision p auth fetch approvalId status m).2)
            = internalApprovals (panel m)) as Hpanel.
  { intros p. destruct (self_managed_dec p auth) as [Hsm|Hsm].
    - rewrite handleDecision_collection by done.
      destruct (request_body _ _ _) as [updated|]; [|done].
      rewrite <- (List.map_id (internalApprovals (panel m))) at 2.
      apply List.map_ext_in. intros item Hin.
      rewrite Forall_forall in Hunknown.
      apply list_elem_of_In, Hunknown in Hin.
      by destruct (String.eqb_spec (id item) approvalId).
    - by rewrite handleDecision_stays_in. }
  split; [apply Hpanel|]. rewrite simple_handleDecision_plain. apply Hpanel.
Qed.

(** X11. Deciding twice is deciding once: a second call of [handleDecision]
    with the same arguments and the same answers of the outside leaves the
    collection as the first call left it. Both revisions. *)
Theorem decision_twice_is_once (props : Panel.Props) (sp : SimplePanel.Props)
    (auth : Auth) (fetch : Request -> outcome (Response Approval))
    (approvalId : string) (status : Decision) (m : Machine) :
  let once := (Panel.handleDecision props auth fetch approvalId status m).2 in
  let once_simple := (SimplePanel.handleDecision sp auth fetch approvalId status m).2 in
  internalApprovals
    (panel (Panel.handleDecision props auth fetch approvalId status once).2)
  = internalApprovals (panel once)
  /\ internalApprovals
       (panel (SimplePanel.handleDecision sp auth fetch approvalId status once_simple).2)
     = internalApprovals (panel once_simple).
Proof.
  assert (forall p,
            let once := (Panel.handleDecision p auth fetch approvalId status m).2 in
            internalApprovals
              (panel (Panel.handleDecision p auth fetch approvalId status once).2)
            = internalApprovals (panel once)) as Hpanel.
  { intros p. cbv zeta. destruct (self_managed_dec p auth) as [Hsm|Hsm].
    - rewrite !handleDecision_collection by done.
      destruct (request_body _ _ _) as [updated|]; [|done].
      apply replace_map_idempotent.
    - by rewrite !handleDecision_stays_in. }
  cbv zeta. split; [apply Hpanel|]. rewrite !simple_handleDecision_plain. apply Hpanel.
Qed.

(** X12. When the record that the server returns for a decision carries the
    id that was decided on, a call of [handleDecision] leaves the ids of the
    collection as they are, entry by entry, whatever the outcome; so a
    collection with one record per id stays one. Both revisions. *)
Theorem decision_keeps_ids (props : Panel.Props) (auth : Auth)
    (fetch : Request -> outcome (Response Approval))
    (approvalId : string) (status : Decision) (m : Machine)
    (Hsame : forall updated,
       request_body auth fetch (decision_request props approvalId status) = Some updated ->
       id updated = approvalId) :
  let after := (Panel.handleDecision props auth fetch approvalId status m).2 in
  let after_simple :=
    (SimplePanel.handleDecision (simple_of props) auth fetch approvalId status m).2 in
  id <$> internalApprovals (panel after) = id <$> internalApprovals (panel m)
  /\ id <$> internalApprovals (panel after_simple) = id <$> internalApprovals (panel m)
  /\ (NoDup (id <$> internalApprovals (panel m)) ->
      NoDup (id <$> internalApprovals (panel after))
      /\ NoDup (id <$> internalApprovals (panel after_simple))).
Proof.
  assert (forall p, Panel.boardId p = Panel.boardId props ->
            id <$> internalApprovals
                     (panel (Panel.handleDecision p auth fetch approvalId status m).2)
            = id <$> internalApprovals (panel m)) as Hpanel.
  { intros p Hp. destruct (self_managed_dec p auth) as [Hsm|Hsm].
    - rewrite handleDecision_collection by done.
      replace (decision_request p approvalId status)
        with (decision_request props approvalId status)
        by (unfold decision_request, Panel.approvals_url; by rewrite Hp).
      destruct (request_body _ _ _) as [updated|] eqn:Hbody; [|done].
      specialize (Hsame updated eq_refl).
      change (List.map ?f ?l) with (f <$> l). rewrite <- list_fmap_compose.
      apply list_fmap_ext. intros i item _. simpl.
      destruct (String.eqb_spec (id item) approvalId); congruence.
    - by rewrite handleDecision_stays_in. }
  cbv zeta.
  assert (id <$> internalApprovals
                   (panel (SimplePanel.handleDecision (simple_of props) auth fetch
                             approvalId status m).2)
          = id <$> internalApprovals (panel m)) as Hsimple.
  { rewrite simple_handleDecision_plain. by apply Hpanel. }
  split; [by apply Hpanel|]. split; [done|].
  intros Hnodup. rewrite Hsimple, (Hpanel props eq_refl). done.
Qed.

(** X13. Two decisions on different ids can be taken in either order: when
    the records that the server returns carry the ids decided on, the
    collection after the two calls is the same. *)
Theorem decisions_commute (props : Panel.Props) (auth : Auth)
    (fetch : Request -> outcome (Response Approval))
    (id1 id2 : string) (status1 status2 : Decision) (m : Machine)
    (Hdistinct : id1 <> id2)
    (Hsame1 : forall updated,
       request_body auth fetch (decision_request props id1 status1) = Some updated ->
       id updated = id1)
    (Hsame2 : forall updated,
       request_body auth fetch (decision_request props id2 status2) = Some updated ->
       id updated = id2) :
  let first1 := (Panel.handleDecision props auth fetch id1 status1 m).2 in
  let first2 := (Panel.handleDecision props auth fetch id2 status2 m).2 in
  internalApprovals (panel (Panel.handleDecision props auth fetch id2 status2 first1).2)
  = internalApprovals (panel (Panel.handleDecision props auth fetch id1 status1 first2).2).
Proof.
  cbv zeta. destruct (self_managed_dec props auth) as [Hsm|Hsm].
  - rewrite !handleDecision_collection by done.
    destruct (request_body auth fetch (decision_request props id1 status1)) as [u1|];
      destruct (request_body auth fetch (decision_request props id2 status2)) as [u2|];
      try done.
    symmetry. apply replace_maps_commute; auto.
  - by rewrite !handleDecision_stays_in.
Qed.

Lemma ticks_app (props : Panel.Props)
    (first rest : list (Auth * (Request -> outcome (Response (list Approval)))))
    (m : Machine) :
  Polling.ticks props (first ++ rest) m
  = Polling.ticks props rest (Polling.ticks props first m).
Proof.
  revert m. induction first as [|[auth fetch] first IH]; intros m; [done|].
  simpl. apply IH.
Qed.

(** X14. Polling keeps what was loaded: after any number of calls of
    [loadApprovals] whose fetches all fail, the collection is the one before
    them; and after any calls at all, one more call whose fetch succeeds
    makes the collection the body of its response. *)
Theorem polling_keeps_last_success (props : Panel.Props)
    (answers : list (Auth * (Request -> outcome (Response (list Approval)))))
    (m : Machine) :
  (Forall (fun answer =>
             exists e, request_fails answer.1 answer.2 (load_request props)
                         "Unable to load approvals." e) answers ->
   internalApprovals (panel (Polling.ticks props answers m))
   = internalApprovals (panel m))
  /\ (forall auth fetch data,
        Panel.usingExternal props = false ->
        isSignedIn auth = true ->
        Panel.boardId props <> "" ->
        request_body auth fetch (load_request props) = Some data ->
        internalApprovals
          (panel (Polling.ticks props (answers ++ [(auth, fetch)]) m)) = data).
Proof.
  split.
  - intros Hfail. revert m.
    induction Hfail as [|[auth fetch] answers Hhead _ IH]; intros m; [done|].
    simpl. rewrite IH. simpl in Hhead.
    apply (request_body_None auth fetch (load_request props)) in Hhead.
    destruct (Panel.usingExternal props) eqn:Hext.
    { unfold Panel.loadApprovals. by rewrite Hext. }
    destruct (negb (isSignedIn auth) || negb (JsString.truthy (Panel.boardId props)))
      eqn:Hguard.
    { unfold Panel.loadApprovals. by rewrite Hext, Hguard. }
    rewrite loadApprovals_collection by done. by rewrite Hhead.
  - intros auth fetch data Hext Hsigned Hboard Hbody.
    rewrite ticks_app. simpl.
    rewrite loadApprovals_collection by (done || by apply guard_open).
    by rewrite Hbody.
Qed.

End CallsMore.

(** ** The rendered view *)

Section ViewFacts.
Context `{Display}.

Lemma partitions_length (approvals : list Approval) :
  (List.length (Panel.pending (Panel.sortedApprovals approvals))
   + List.length (Panel.resolved (Panel.sortedApprovals approvals)))%nat
  = List.length approvals.
Proof.
  rewrite <- length_app. apply Permutation_length.
  unfold Panel.sortedApprovals. cbn [Panel.pending Panel.resolved].
  rewrite !sortByTime_Permutation. apply filter_negb_Permutation.
Qed.

Lemma partitions_empty (approvals : list Approval) :
  ((List.length (Panel.pending (Panel.sortedApprovals approvals)) =? 0)
   && (List.length (Panel.resolved (Panel.sortedApprovals approvals)) =? 0))%nat = true
  <-> approvals = [].
Proof.
  pose proof (partitions_length approvals) as Hlen.
  rewrite andb_true_iff, !Nat.eqb_eq. split.
  - intros [Hp Hr]. rewrite Hp, Hr in Hlen. by destruct approvals.
  - by intros ->.
Qed.

(** X15. The heading counts the records of the collection shown whose
    status is ["pending"]. The text "No approvals yet." is shown exactly when
    the component is not loading and the collection it shows is empty; and
    when the sections are shown, at least one of the two is there. Both
    revisions. *)
Theorem empty_message_iff_empty (props : Panel.Props) (s : PanelState) :
  PanelView.pending_count (PanelView.render props s)
  = List.length (List.filter (fun a => String.eqb (status a) "pending")
                   (Panel.approvals props s))
  /\ (PanelView.body (PanelView.render props s) = PanelView.NoApprovals
   <-> Panel.loadingState props s = false /\ Panel.approvals props s = [])
  /\ (forall pending resolved,
        PanelView.body (PanelView.render props s) = PanelView.Sections pending resolved ->
        is_Some pending \/ is_Some resolved)
  /\ (SimplePanelView.body (SimplePanelView.render s) = SimplePanelView.NoApprovals
      <-> isLoading s = false /\ internalApprovals s = []).
Proof.
  split; [|split; [|split]].
  - unfold PanelView.render. cbn [PanelView.pending_count].
    unfold Panel.sortedApprovals. cbn [Panel.pending].
    unfold Panel.sortByTime. apply sort_length.
  - unfold PanelView.render. cbn [PanelView.body].
    pose proof (partitions_empty (Panel.approvals props s)) as Hempty.
    destruct (Panel.loadingState props s); [split; [done|by intros [? _]]|].
    destruct (_ && _)%nat; split; try done.
    + intros _. split; [done|]. by apply Hempty.
    + intros [_ He]. apply Hempty in He. done.
  - intros pending resolved. unfold PanelView.render. cbn [PanelView.body].
    destruct (Panel.loadingState props s); [done|].
    destruct (List.length (Panel.pending _)) eqn:Hp;
      destruct (List.length (Panel.resolved _)) eqn:Hr; simpl; try done;
      intros [= <- <-]; auto.
  - unfold SimplePanelView.render. cbn [SimplePanelView.body].
    destruct (isLoading s); [split; [done|by intros [? _]]|].
    pose proof (partitions_length (internalApprovals s)) as Hlen.
    rewrite simple_sortedApprovals, length_app.
    destruct (Nat.eqb_spec
                (List.length (Panel.pending (Panel.sortedApprovals (internalApprovals s)))
                 + List.length (Panel.resolved (Panel.sortedApprovals (internalApprovals s))))
                0) as [Hz|Hnz]; split; try done.
    + intros _. split; [done|]. rewrite Hz in Hlen. by destruct (internalApprovals s).
    + intros [_ He]. rewrite He in Hnz. done.
Qed.

Lemma omap_pending_cards (updating : option string) (l : list Approval) :
  omap (fun c => (fun d => (PanelView.key c, d)) <$> PanelView.buttons c)
    (List.map (PanelView.pending_card updating) l)
  = List.map (fun a => (id a, PanelView.disabled updating a)) l.
Proof. induction l as [|a l IH]; [done|]. simpl. f_equal. exact IH. Qed.

Lemma omap_resolved_cards (l : list Approval) :
  omap (fun c => (fun d => (PanelView.key c, d)) <$> PanelView.buttons c)
    (List.map PanelView.resolved_card l) = [].
Proof. induction l as [|a l IH]; [done|]. simpl. exact IH. Qed.

Lemma omap_simple_cards (updating : option string) (l : list Approval) :
  omap (fun c => (fun d => (SimplePanelView.key c, d)) <$> SimplePanelView.buttons c)
    (List.map (SimplePanelView.card updating) l)
  = List.map (fun a => (id a, PanelView.disabled updating a))
      (List.filter (fun a => String.eqb (status a) "pending") l).
Proof.
  induction l as [|a l IH]; [done|]. simpl.
  destruct (String.eqb (status a) "pending"); simpl; [f_equal|]; exact IH.
Qed.

Lemma cards_of_render (props : Panel.Props) (s : PanelState) :
  cards_of (PanelView.render props s)
  = if Panel.loadingState props s then []
    else (List.map (PanelView.pending_card (updatingId s))
            (Panel.pending (Panel.sortedApprovals (Panel.approvals props s)))
          ++ List.map PanelView.resolved_card
               (Panel.resolved (Panel.sortedApprovals (Panel.approvals props s))))%list.
Proof.
  unfold cards_of, PanelView.render. cbn [PanelView.body].
  destruct (Panel.loadingState props s); [done|].
  destruct (Panel.pending _) as [|a P]; destruct (Panel.resolved _) as [|b Q]; done.
Qed.

Lemma simple_cards_of_render (s : PanelState) :
  simple_cards_of (SimplePanelView.render s)
  = if isLoading s then []
    else List.map (SimplePanelView.card (updatingId s))
           (SimplePanel.sortedApprovals (internalApprovals s)).
Proof.
  unfold simple_cards_of, SimplePanelView.render. cbn [SimplePanelView.body].
  destruct (isLoading s); [done|].
  by destruct (SimplePanel.sortedApprovals (internalApprovals s)).
Qed.



Lemma card_keys (updating : option string) (P Q : list Approval) :
  PanelView.key <$> (List.map (PanelView.pending_card updating) P
                     ++ List.map PanelView.resolved_card Q)%list
  = id <$> (P ++ Q)%list.
Proof.
  rewrite !fmap_app. f_equal.
  - induction P as [|a P IH]; [done|]. simpl. by f_equal.
  - induction Q as [|a Q IH]; [done|]. simpl. by f_equal.
Qed.

(** X17. When the collection shown has one record per id, the keys of the
    rendered entries are distinct. Both revisions. *)
Theorem rendered_keys_distinct (props : Panel.Props) (s : PanelState)
    (Hids : NoDup (id <$> Panel.approvals props s))
    (Hown : NoDup (id <$> internalApprovals s)) :
  NoDup (PanelView.key <$> cards_of (PanelView.render props s))
  /\ NoDup (SimplePanelView.key <$> simple_cards_of (SimplePanelView.render s)).
Proof.
  rewrite cards_of_render, simple_cards_of_render. split.
  - destruct (Panel.loadingState props s); [constructor|].
    rewrite card_keys. by apply partition_keys_distinct.
  - destruct (isLoading s); [constructor|].
    replace (SimplePanelView.key <$> List.map (SimplePanelView.card (updatingId s))
               (SimplePanel.sortedApprovals (internalApprovals s)))
      with (id <$> SimplePanel.sortedApprovals (internalApprovals s)).
    { by apply partition_keys_distinct. }
    induction (SimplePanel.sortedApprovals (internalApprovals s)) as [|a l IH];
      [done|]. simpl. by f_equal.
Qed.

(** X19. An entry with buttons carries the badge of a pending record: the
    variant ["outline"] with the text ["pending"]. Both revisions. *)
Theorem buttons_only_with_pending_badge (props : Panel.Props) (s : PanelState) :
  (forall c, c ∈ cards_of (PanelView.render props s) ->
     is_Some (PanelView.buttons c) ->
     PanelView.status_badge c = ("outline", "pending"))
  /\ (forall c, c ∈ simple_cards_of (SimplePanelView.render s) ->
        is_Some (SimplePanelView.buttons c) ->
        SimplePanelView.status_badge c = ("outline", "pending")).
Proof.
  split.
  - intros c. rewrite cards_of_render.
    destruct (Panel.loadingState props s); [by intros ?%elem_of_nil|].
    rewrite elem_of_app, !list_elem_of_In, !in_map_iff.
    intros [(a & <- & Ha)|(a & <- & Ha)] [d Hd]; [|done].
    apply list_elem_of_In in Ha. unfold Panel.sortedApprovals in Ha.
    cbn [Panel.pending] in Ha. unfold Panel.sortByTime in Ha.
    apply elem_of_sort_filter in Ha as [_ Hp]. apply pending_status in Hp.
    simpl. by rewrite Hp.
  - intros c. rewrite simple_cards_of_render.
    destruct (isLoading s); [by intros ?%elem_of_nil|].
    rewrite list_elem_of_In, in_map_iff. intros (a & <- & _) [d Hd].
    simpl in *. destruct (String.eqb_spec (status a) "pending") as [Hp|]; [|done].
    by rewrite Hp.
Qed.

End ViewFacts.

(** ** Calls and what is rendered after them *)

Section CallsAndView.
Context `{Display}.

Lemma loadApprovals_failure_error (props : Panel.Props) (auth : Auth)
    (fetch : Request -> outcome (Response (list Approval))) (m : Machine) (e : thrown) :
  Panel.usingExternal props = false ->
  isSignedIn auth = true ->
  Panel.boardId props <> "" ->
  request_fails auth fetch (load_request props) "Unable to load approvals." e ->
  error (panel (Panel.loadApprovals props auth fetch m).2)
  = Some (error_message e "Unable to load approvals.").
Proof.
  intros Hext Hsigned Hboard Hfails.
  pose proof (guard_open _ _ Hsigned Hboard) as Hguard.
  destruct Hfails as [e He | token e Ht Hf | token res Ht Hf Hok
                     | token res e Ht Hf Hok Hj];
    unfold_call; rewrite Hext, Hguard;
    rewrite ?He, ?Ht; simpl; rewrite ?Hf; simpl; rewrite ?Hok; simpl;
    rewrite ?Hj; simpl; done.
Qed.

Lemma handleDecision_marker (props : Panel.Props) (auth : Auth)
    (fetch : Request -> outcome (Response Approval))
    (approvalId : string) (status : Decision) (m : Machine) :
  self_managed props auth ->
  updatingId (panel (Panel.handleDecision props auth fetch approvalId status m).2) = None.
Proof.
  intros (Hnone & Hext & Hguard)%self_managed_guard.
  unfold_call. rewrite Hnone, Hext, Hguard.
  destruct (getToken auth) as [token|]; simpl; [|done].
  destruct (fetch _) as [res|]; simpl; [|done].
  destruct (ok res); simpl; [|done]. by destruct (json res).
Qed.

(** X18. After a failed fetch the banner shows the message of the failure,
    unless that message is empty: an [Error] without a message leaves no
    banner at all, although the error cell is set. Both revisions. *)
Theorem failure_banner (props : Panel.Props) (auth : Auth)
    (fetch : Request -> outcome (Response (list Approval))) (m : Machine) (e : thrown)
    (Hinternal : Panel.externalApprovals props = None)
    (Hsigned : isSignedIn auth = true)
    (Hboard : Panel.boardId props <> "")
    (Hfails : request_fails auth fetch (load_request props)
                "Unable to load approvals." e) :
  let message := error_message e "Unable to load approvals." in
  let after := panel (Panel.loadApprovals props auth fetch m).2 in
  let after_simple := panel (SimplePanel.loadApprovals (simple_of props) auth fetch m).2 in
  (message <> "" ->
     PanelView.banner (PanelView.render props after) = Some message
     /\ SimplePanelView.banner (SimplePanelView.render after_simple) = Some message)
  /\ (message = "" ->
      error after = Some ""
      /\ PanelView.banner (PanelView.render props after) = None
      /\ SimplePanelView.banner (SimplePanelView.render after_simple) = None).
Proof.
  assert (Panel.usingExternal props = false) as Hext
    by (unfold Panel.usingExternal; by rewrite Hinternal).
  cbv zeta. rewrite simple_loadApprovals by done.
  pose proof (loadApprovals_failure_error props auth fetch m e Hext Hsigned Hboard Hfails)
    as Herror.
  unfold PanelView.render, SimplePanelView.render.
  cbn [PanelView.banner SimplePanelView.banner]. unfold Panel.errorState.
  rewrite Hext, Herror. cbn [shown_text].
  split; intros Hmsg.
  - by rewrite (truthy_nonempty _ Hmsg).
  - by rewrite Hmsg.
Qed.

(** X20. When a call of [handleDecision] that the component handles itself
    has ended, whatever its outcome, no button of the view is disabled.
    Both revisions. *)
Theorem no_button_disabled_after_decision (props : Panel.Props) (auth : Auth)
    (fetch : Request -> outcome (Response Approval))
    (approvalId : string) (status : Decision) (m : Machine)
    (Hown : self_managed props auth) :
  let after := panel (Panel.handleDecision props auth fetch approvalId status m).2 in
  let after_simple :=
    panel (SimplePanel.handleDecision (simple_of props) auth fetch approvalId status m).2 in
  (forall entry, entry ∈ actionable (PanelView.render props after) -> entry.2 = false)
  /\ (forall entry, entry ∈ simple_actionable (SimplePanelView.render after_simple) ->
        entry.2 = false).
Proof.
  pose proof (handleDecision_marker props auth fetch approvalId status m Hown) as Hmarker.
  destruct (self_managed_guard _ _ Hown) as (Hnone & Hext & _).
  cbv zeta. rewrite simple_handleDecision by done.
  unfold actionable, simple_actionable.
  rewrite cards_of_render, simple_cards_of_render, Hmarker.
  split; intros entry.
  - destruct (Panel.loadingState props _); [by intros ?%elem_of_nil|].
    rewrite omap_app, omap_pending_cards, omap_resolved_cards, app_nil_r.
    rewrite list_elem_of_In, in_map_iff. by intros (a & <- & _).
  - destruct (isLoading _); [by intros ?%elem_of_nil|].
    rewrite omap_simple_cards.
    rewrite list_elem_of_In, in_map_iff. by intros (a & <- & _).
Qed.

End CallsAndView.

(** ** More on summaries *)

Section SummariesMore.
Context `{Platform}.

Lemma rows_shape (a : Approval) :
  exists task agent title role : list Panel.Row,
    Panel.rows (Panel.approvalSummary a) = (task ++ agent ++ title ++ role)%list
    /\ (task = []
        \/ exists text, text <> ""
             /\ Panel.taskId (Panel.approvalSummary a) = Some text
             /\ task = [ {| Panel.label := "Task"; Panel.value := text |} ])
    /\ (agent = [] /\ JsString.includes "assign" (action_type a) = false
        \/ exists text, JsString.includes "assign" (action_type a) = true
             /\ agent = [ {| Panel.label := "Assignee"; Panel.value := text |} ])
    /\ (title = []
        \/ exists text, text <> ""
             /\ title = [ {| Panel.label := "Title"; Panel.value := text |} ])
    /\ (role = []
        \/ exists text, text <> ""
             /\ role = [ {| Panel.label := "Role"; Panel.value := text |} ]).
Proof.
  unfold Panel.approvalSummary. cbv zeta. cbn [Panel.rows Panel.taskId].
  remember (Some (default ∅ (payload a))) as fields.
  remember (Panel.nullish_or (Panel.payloadValue fields "task_id") _) as task.
  remember (Panel.nullish_or (Panel.payloadValue fields "assigned_agent_id") _) as agent.
  remember (Panel.payloadValue fields "title") as title.
  remember (Panel.payloadValue fields "role") as role.
  exists (if Panel.truthy_opt task
          then [ {| Panel.label := "Task"; Panel.value := default "" task |} ] else []),
         (if JsString.includes "assign" (action_type a)
          then [ {| Panel.label := "Assignee"; Panel.value := default "Unassigned" agent |} ]
          else []),
         (if Panel.truthy_opt title
          then [ {| Panel.label := "Title"; Panel.value := default "" title |} ] else []),
         (if Panel.truthy_opt role
          then [ {| Panel.label := "Role"; Panel.value := default "" role |} ] else []).
  split; [|split; [|split; [|split]]].
  - destruct (Panel.truthy_opt task), (JsString.includes "assign" (action_type a)),
      (Panel.truthy_opt title), (Panel.truthy_opt role); reflexivity.
  - destruct (Panel.truthy_opt task) eqn:Ht; [right|by left].
    apply truthy_opt_Some in Ht as (text & -> & Hne). by exists text.
  - destruct (JsString.includes "assign" (action_type a)); [right|by left].
    by eexists.
  - destruct (Panel.truthy_opt title) eqn:Ht; [right|by left].
    apply truthy_opt_Some in Ht as (text & -> & Hne). by exists text.
  - destruct (Panel.truthy_opt role) eqn:Ht; [right|by left].
    apply truthy_opt_Some in Ht as (text & -> & Hne). by exists text.
Qed.

(** X21. The rows of a summary come in the order Task, Assignee, Title,
    Role, each at most once: their labels are a sublist of these four, so
    they are distinct and the rows are at most four; and a Task, Title or
    Role row never shows an empty text. *)
Theorem summary_rows_in_order (a : Approval) :
  let rows := Panel.rows (Panel.approvalSummary a) in
  (Panel.label <$> rows) `sublist_of` ["Task"; "Assignee"; "Title"; "Role"]
  /\ NoDup (Panel.label <$> rows)
  /\ (List.length rows <= 4)%nat
  /\ forall r, r ∈ rows -> Panel.label r <> "Assignee" -> Panel.value r <> "".
Proof.
  cbv zeta.
  destruct (rows_shape a)
    as (task & agent & title & role & -> & Htask & Hagent & Htitle & Hrole).
  destruct Htask as [->|(t1 & Hn1 & _ & ->)];
    destruct Hagent as [[-> _]|(t2 & _ & ->)];
    destruct Htitle as [->|(t3 & Hn3 & ->)];
    destruct Hrole as [->|(t4 & Hn4 & ->)];
    simpl.
  all: split;
    [solve [repeat first [apply sublist_nil_l | apply sublist_skip
                          | apply sublist_cons]]|].
  all: split;
    [repeat (apply NoDup_cons_2;
             [rewrite ?not_elem_of_cons; repeat split;
              try discriminate; apply not_elem_of_nil|]);
     apply NoDup_nil_2|].
  all: split; [lia|].
  all: intros r Hr Hlabel;
    repeat (apply elem_of_cons in Hr as [->|Hr]); try (by apply elem_of_nil in Hr);
    simpl in *; done.
Qed.

(** X22. For an approval whose action type does not contain ["assign"],
    the summary has no Assignee row and every row shows a field that is
    present in the payload. *)
Theorem other_summary_rows_present (a : Approval)
    (Hother : JsString.includes "assign" (action_type a) = false) :
  rows_only_present a
  /\ forall r, r ∈ Panel.rows (Panel.approvalSummary a) -> Panel.label r <> "Assignee".
Proof.
  assert (forall r, r ∈ Panel.rows (Panel.approvalSummary a) ->
            Panel.label r <> "Assignee") as Hlabels.
  { intros r.
    destruct (rows_shape a)
      as (task & agent & title & role & -> & Htask & Hagent & Htitle & Hrole).
    destruct Hagent as [[-> _]|(t2 & Hassign & _)]; [|congruence].
    destruct Htask as [->|(t1 & _ & _ & ->)];
      destruct Htitle as [->|(t3 & _ & ->)];
      destruct Hrole as [->|(t4 & _ & ->)];
      cbn [app]; intros Hr;
      repeat (apply elem_of_cons in Hr as [->|Hr]); try (by apply elem_of_nil in Hr);
      done. }
  split; [|exact Hlabels].
  intros r Hr. destruct (rows_sound a r Hr) as [->|Hp]; [|done].
  by destruct (Hlabels _ Hr).
Qed.

(** X23. An approval without a payload, or with an empty one, has no task
    id and no reason, and its summary has no row, except the row
    Assignee: Unassigned of an assignment. *)
Theorem summary_without_payload (a : Approval)
    (Hempty : payload a = None \/ payload a = Some ∅) :
  let summary := Panel.approvalSummary a in
  Panel.taskId summary = None
  /\ Panel.reason summary = None
  /\ Panel.rows summary
     = if JsString.includes "assign" (action_type a)
       then [ {| Panel.label := "Assignee"; Panel.value := "Unassigned" |} ]
       else [].
Proof.
  cbv zeta. unfold Panel.approvalSummary. cbv zeta.
  cbn [Panel.taskId Panel.reason Panel.rows].
  assert (forall key, Panel.payloadValue (Some (default ∅ (payload a))) key = None)
    as Hnone.
  { intros key. rewrite payloadValue_scalar.
    destruct Hempty as [-> | ->]; simpl; by rewrite lookup_empty. }
  rewrite !Hnone. cbn [Panel.nullish_or Panel.truthy_opt default from_option id].
  by destruct (JsString.includes "assign" (action_type a)).
Qed.

Lemma payloadValue_default (a : Approval) (key : string) :
  Panel.payloadValue (Some (default ∅ (payload a))) key
  = default ∅ (payload a) !! key ≫= scalar_text.
Proof. apply payloadValue_scalar. Qed.

(** X24. Among the accepted spellings of a key the first one that holds a
    string or a number wins: the task id is read under [task_id] before
    [taskId] before [taskID], and the assignee shown for an assignment under
    [assigned_agent_id] before [assignedAgentId]; a value that is neither a
    string nor a number does not hide a later spelling. *)
Theorem first_spelling_wins (a : Approval) :
  let fields := default ∅ (payload a) in
  Panel.taskId (Panel.approvalSummary a)
  = first_scalar fields ["task_id"; "taskId"; "taskID"]
  /\ (JsString.includes "assign" (action_type a) = true ->
      {| Panel.label := "Assignee";
         Panel.value :=
           default "Unassigned"
             (first_scalar fields ["assigned_agent_id"; "assignedAgentId"]) |}
      ∈ Panel.rows (Panel.approvalSummary a)).
Proof.
  cbv zeta. split.
  - unfold Panel.approvalSummary. cbv zeta. cbn [Panel.taskId first_scalar].
    rewrite !payloadValue_default.
    destruct (_ !! "task_id" ≫= scalar_text); [done|].
    destruct (_ !! "taskId" ≫= scalar_text); [done|].
    by destruct (_ !! "taskID" ≫= scalar_text).
  - intros Hassign. pose proof (assignee_row a Hassign) as Hrow.
    rewrite !payloadValue_default in Hrow. cbn [first_scalar].
    destruct (_ !! "assigned_agent_id" ≫= scalar_text); [done|].
    by destruct (_ !! "assignedAgentId" ≫= scalar_text).
Qed.

End SummariesMore.

(** ** The polling effect *)

Section PollingFacts.
Context `{Platform}.

(** X25. The effect sets an interval exactly when the component manages
    its own approvals, the session is signed in and the board is named; the
    interval is a new timer of 15000 milliseconds, and no other timer
    changes. Otherwise the effect sets no timer and leaves the machine as it
    was. Both revisions. *)
Theorem effect_sets_one_interval (props : Panel.Props) (auth : Auth)
    (fetch : Request -> outcome (Response (list Approval)))
    (m : Machine) (t : Polling.Timers) :
  let run := Polling.panel_effect props auth fetch (m, t) in
  let run_simple := Polling.simple_effect (simple_of props) auth fetch (m, t) in
  let open :=
    Panel.externalApprovals props = None
    /\ isSignedIn auth = true /\ Panel.boardId props <> "" in
  (open ->
     run.1 = Some (Polling.next_timer t)
     /\ Polling.intervals run.2.2 = <[Polling.next_timer t := 15000]> (Polling.intervals t))
  /\ (~ open -> run = (None, (m, t)))
  /\ (isSignedIn auth = true /\ Panel.boardId props <> "" ->
      run_simple.1 = Some (Polling.next_timer t)
      /\ Polling.intervals run_simple.2.2
         = <[Polling.next_timer t := 15000]> (Polling.intervals t))
  /\ (~ (isSignedIn auth = true /\ Panel.boardId props <> "") ->
      run_simple = (None, (m, t))).
Proof.
  cbv zeta. unfold Polling.panel_effect, Polling.simple_effect, Panel.usingExternal.
  cbn [fst snd SimplePanel.boardId simple_of].
  split; [|split; [|split]].
  - intros (Hint & Hsigned & Hboard).
    pose proof (guard_open _ _ Hsigned Hboard) as Hguard.
    by rewrite Hint, Hguard.
  - intros Hclosed. destruct (Panel.externalApprovals props) eqn:Hx; [done|].
    destruct (isSignedIn auth) eqn:Hs.
    + destruct (Panel.boardId props) as [|c b] eqn:Hb.
      * unfold Panel.loadApprovals, Panel.usingExternal. by rewrite ?Hx, ?Hs, ?Hb.
      * destruct Hclosed. rewrite ?Hb. by repeat split.
    + unfold Panel.loadApprovals, Panel.usingExternal. by rewrite ?Hx, ?Hs.
  - intros (Hsigned & Hboard).
    pose proof (guard_open _ _ Hsigned Hboard) as Hguard. by rewrite Hguard.
  - intros Hclosed. destruct (isSignedIn auth) eqn:Hs.
    + destruct (Panel.boardId props) as [|c b] eqn:Hb.
      * unfold SimplePanel.loadApprovals. simpl. by rewrite ?Hs, ?Hb.
      * destruct Hclosed. rewrite ?Hb. by repeat split.
    + unfold SimplePanel.loadApprovals. simpl. by rewrite ?Hs.
Qed.

(** X26. The cleanup of the effect takes back what the effect set: when
    the identifier that [setInterval] hands out next is not in use, the
    timers after the effect and its cleanup are the timers before the
    effect. Both revisions. *)
Theorem effect_cleanup_restores_timers (props : Panel.Props) (auth : Auth)
    (fetch : Request -> outcome (Response (list Approval)))
    (m : Machine) (t : Polling.Timers)
    (Hfresh : Polling.intervals t !! Polling.next_timer t = None) :
  let run := Polling.panel_effect props auth fetch (m, t) in
  let run_simple := Polling.simple_effect (simple_of props) auth fetch (m, t) in
  Polling.intervals (Polling.cleanup run.1 run.2.2) = Polling.intervals t
  /\ Polling.intervals (Polling.cleanup run_simple.1 run_simple.2.2)
     = Polling.intervals t.
Proof.
  cbv zeta. unfold Polling.panel_effect, Polling.simple_effect.
  cbn [fst snd SimplePanel.boardId simple_of].
  destruct (negb (isSignedIn auth) || negb (JsString.truthy (Panel.boardId props)));
    destruct (Panel.usingExternal props); cbn; try done.
  all: rewrite ?delete_insert_eq; by rewrite ?delete_id.
Qed.

End PollingFacts.

(** ** Titles *)

Section Titles.

Lemma string_app_cons (x : ascii) (a b : string) :
  String x a +:+ b = String x (a +:+ b).
Proof. reflexivity. Qed.

Lemma string_app_assoc (a b c : string) : (a +:+ b) +:+ c = a +:+ (b +:+ c).
Proof. induction a as [|x a IH]; [done|]. by rewrite !string_app_cons, IH. Qed.

Lemma split_nonempty (sep : ascii) (s : string) : JsString.split sep s <> [].
Proof.
  destruct s as [|c s]; [done|]. simpl.
  destruct (Ascii.eqb c sep); [done|]. by destruct (JsString.split sep s).
Qed.

Lemma split_app (sep : ascii) (a b : string) :
  JsString.split sep (a +:+ String sep b)
  = (JsString.split sep a ++ JsString.split sep b)%list.
Proof.
  induction a as [|c a IH].
  - simpl. by rewrite Ascii.eqb_refl.
  - rewrite string_app_cons. simpl.
    rewrite IH. destruct (Ascii.eqb c sep); [done|].
    pose proof (split_nonempty sep a) as Hne.
    by destruct (JsString.split sep a).
Qed.

Lemma split_no_sep (sep : ascii) (s : string) :
  chars_all (fun c => negb (Ascii.eqb c sep)) s = true ->
  JsString.split sep s = [s].
Proof.
  induction s as [|c s IH]; [done|]. simpl.
  intros [Hc Hs]%andb_true_iff. apply negb_true_iff in Hc. rewrite Hc.
  by rewrite (IH Hs).
Qed.

Lemma join_cons (sep part : string) (parts : list string) :
  parts <> [] ->
  JsString.join sep (part :: parts) = part +:+ sep +:+ JsString.join sep parts.
Proof. by destruct parts. Qed.

Lemma join_app (sep : string) (l1 l2 : list string) :
  l1 <> [] -> l2 <> [] ->
  JsString.join sep (l1 ++ l2) = JsString.join sep l1 +:+ sep +:+ JsString.join sep l2.
Proof.
  intros H1 H2. induction l1 as [|p l1 IH]; [done|].
  destruct l1 as [|q l1].
  - by apply join_cons.
  - rewrite <- app_comm_cons, join_cons by done.
    rewrite IH by done. rewrite (join_cons sep p (q :: l1)) by done.
    by rewrite !string_app_assoc.
Qed.

(** X27. The title is built part by part: the title of two names joined by
    a dot is their titles joined by the separator, and the title of a name
    without a dot is the name with its underscores turned into spaces and its
    words capitalised. *)
Theorem humanizeAction_by_parts (a b : string) :
  Panel.humanizeAction (a +:+ "." +:+ b)
  = Panel.humanizeAction a +:+ " · " +:+ Panel.humanizeAction b
  /\ (chars_all (fun c => negb (Ascii.eqb c ".")) a = true ->
      Panel.humanizeAction a
      = JsString.capitalize_words (SimplePanel.action_title a)).
Proof.
  split.
  - unfold Panel.humanizeAction.
    change ("." +:+ b) with (String "." b). rewrite split_app, List.map_app.
    apply join_app.
    + pose proof (split_nonempty "." a). by destruct (JsString.split "." a).
    + pose proof (split_nonempty "." b). by destruct (JsString.split "." b).
  - intros Hdot. unfold Panel.humanizeAction. by rewrite (split_no_sep _ _ Hdot).
Qed.

Lemma chars_all_app (p : ascii -> bool) (a b : string) :
  chars_all p (a +:+ b) = chars_all p a && chars_all p b.
Proof.
  induction a as [|c a IH]; [done|].
  rewrite string_app_cons. simpl. by rewrite IH, andb_assoc.
Qed.

Lemma chars_all_join (p : ascii -> bool) (sep : string) (parts : list string) :
  chars_all p sep = true ->
  Forall (fun part => chars_all p part = true) parts ->
  chars_all p (JsString.join sep parts) = true.
Proof.
  intros Hsep. induction 1 as [|part parts Hpart Hparts IH]; [done|].
  destruct parts as [|q parts]; [done|].
  rewrite join_cons by done.
  by rewrite !chars_all_app, Hpart, Hsep, IH.
Qed.

Lemma split_parts_no_sep (sep : ascii) (s : string) :
  Forall (fun part => chars_all (fun c => negb (Ascii.eqb c sep)) part = true)
    (JsString.split sep s).
Proof.
  induction s as [|c s IH]; simpl; [by repeat constructor|].
  destruct (Ascii.eqb c sep) eqn:Hc; [by constructor|].
  pose proof (split_nonempty sep s) as Hne.
  destruct (JsString.split sep s) as [|part parts]; [done|].
  apply Forall_cons in IH as [Hpart Hparts]. constructor; [|done].
  simpl. by rewrite Hc, Hpart.
Qed.

Lemma toUpperCase_char_facts (c : ascii) :
  JsString.is_word_char (JsString.toUpperCase_char c) = JsString.is_word_char c
  /\ JsString.toUpperCase_char (JsString.toUpperCase_char c)
     = JsString.toUpperCase_char c
  /\ (Ascii.eqb c "." = false -> Ascii.eqb (JsString.toUpperCase_char c) "." = false)
  /\ (Ascii.eqb c "_" = false -> Ascii.eqb (JsString.toUpperCase_char c) "_" = false).
Proof. by destruct c as [[] [] [] [] [] [] [] []]. Qed.

Lemma capitalize_from_keeps (p : ascii -> bool) (before : bool) (s : string) :
  (forall c, p c = true -> p (JsString.toUpperCase_char c) = true) ->
  chars_all p s = true -> chars_all p (JsString.capitalize_from before s) = true.
Proof.
  intros Hup. revert before. induction s as [|c s IH]; intros before; [done|].
  simpl. intros [Hc Hs]%andb_true_iff. rewrite (IH _ Hs), andb_true_r.
  destruct (JsString.is_word_char c && negb before); [by apply Hup|done].
Qed.

Lemma replace_underscores_keeps_dots (s : string) :
  chars_all (fun c => negb (Ascii.eqb c ".")) s = true ->
  chars_all (fun c => negb (Ascii.eqb c "_") && negb (Ascii.eqb c "."))
    (JsString.replace_underscores s) = true.
Proof.
  induction s as [|c s IH]; [done|]. simpl.
  intros [Hc Hs]%andb_true_iff. rewrite (IH Hs), andb_true_r.
  destruct (Ascii.eqb c "_") eqn:Hu; [done|]. by rewrite Hu, Hc.
Qed.

Lemma humanizeAction_chars (v : string) :
  chars_all (fun c => negb (Ascii.eqb c "_") && negb (Ascii.eqb c "."))
    (Panel.humanizeAction v) = true.
Proof.
  unfold Panel.humanizeAction. apply chars_all_join; [done|].
  apply Forall_forall. intros part. rewrite list_elem_of_In, in_map_iff.
  intros (raw & <- & Hraw).
  apply capitalize_from_keeps.
  - intros c [Hu Hd]%andb_true_iff. apply negb_true_iff in Hu, Hd.
    destruct (toUpperCase_char_facts c) as (_ & _ & Hdot & Hund).
    by rewrite (Hdot Hd), (Hund Hu).
  - apply replace_underscores_keeps_dots.
    pose proof (split_parts_no_sep "." v) as Hparts.
    rewrite Forall_forall in Hparts. apply Hparts. by apply list_elem_of_In.
Qed.

Lemma includes_char (c : ascii) (s : string) :
  JsString.includes (String c EmptyString) s
  = negb (chars_all (fun x => negb (Ascii.eqb x c)) s).
Proof.
  induction s as [|x s IH]; [done|].
  cbn [JsString.includes JsString.startsWith chars_all]. rewrite IH.
  rewrite andb_true_r, negb_andb, negb_involutive. by rewrite Ascii.eqb_sym.
Qed.

Lemma chars_all_impl (p q : ascii -> bool) (s : string) :
  (forall c, p c = true -> q c = true) ->
  chars_all p s = true -> chars_all q s = true.
Proof.
  intros Hpq. induction s as [|c s IH]; [done|]. simpl.
  intros [Hc Hs]%andb_true_iff. by rewrite (Hpq _ Hc), (IH Hs).
Qed.

Lemma replace_underscores_fixed (s : string) :
  chars_all (fun c => negb (Ascii.eqb c "_")) s = true ->
  JsString.replace_underscores s = s.
Proof.
  induction s as [|c s IH]; [done|]. simpl.
  intros [Hc Hs]%andb_true_iff. apply negb_true_iff in Hc. by rewrite Hc, (IH Hs).
Qed.

Lemma capitalize_from_app (before : bool) (a b : string) :
  JsString.capitalize_from before (a +:+ b)
  = JsString.capitalize_from before a
    +:+ JsString.capitalize_from (ends_in_word before a) b.
Proof.
  revert before. induction a as [|c a IH]; intros before; [done|].
  rewrite string_app_cons. simpl. by rewrite IH.
Qed.

Lemma ends_in_word_capitalize (before flag : bool) (s : string) :
  ends_in_word before (JsString.capitalize_from flag s) = ends_in_word before s.
Proof.
  revert before flag. induction s as [|c s IH]; intros before flag; [done|].
  simpl. rewrite IH.
  destruct (JsString.is_word_char c && negb flag); [|done].
  by destruct (toUpperCase_char_facts c) as (-> & _).
Qed.

Lemma capitalize_from_idempotent (before : bool) (s : string) :
  JsString.capitalize_from before (JsString.capitalize_from before s)
  = JsString.capitalize_from before s.
Proof.
  revert before. induction s as [|c s IH]; intros before; [done|].
  destruct (toUpperCase_char_facts c) as (Hword & Hup & _).
  simpl. destruct (JsString.is_word_char c && negb before) eqn:Hstart.
  - rewrite Hword, Hstart, Hup. by rewrite IH.
  - rewrite Hstart. by rewrite IH.
Qed.

Lemma capitalize_join (parts : list string) :
  JsString.capitalize_from false
    (JsString.join middle_dot_separator
       (List.map (JsString.capitalize_from false) parts))
  = JsString.join middle_dot_separator (List.map (JsString.capitalize_from false) parts).
Proof.
  induction parts as [|p parts IH]; [done|].
  destruct parts as [|q parts]; [apply capitalize_from_idempotent|].
  cbn [List.map] in *. rewrite join_cons by done.
  rewrite !capitalize_from_app, capitalize_from_idempotent.
  rewrite ends_in_word_capitalize.
  assert (forall flag, JsString.capitalize_from flag middle_dot_separator
                       = middle_dot_separator) as Hsep by (by intros []).
  assert (forall flag, ends_in_word flag middle_dot_separator = false) as Hend
    by (by intros []).
  by rewrite Hsep, Hend, IH.
Qed.

Lemma replace_underscores_clean (s : string) :
  chars_all (fun c => negb (Ascii.eqb c "_")) (JsString.replace_underscores s) = true.
Proof.
  induction s as [|c s IH]; [done|]. simpl. rewrite IH, andb_true_r.
  destruct (Ascii.eqb c "_") eqn:Hc; [done|]. by rewrite Hc.
Qed.

Lemma replace_underscores_length (s : string) :
  String.length (JsString.replace_underscores s) = String.length s.
Proof. induction s as [|c s IH]; [done|]. simpl. by rewrite IH. Qed.

(** X28. A title contains no underscore, in either revision, and the title
    of [humanizeAction] no dot either; [humanizeAction] leaves a title it
    has made as it is, and so does the other revision's replacement, which
    also keeps the length of the action type. *)
Theorem titles_are_clean (v : string) :
  JsString.includes "_" (Panel.humanizeAction v) = false
  /\ JsString.includes "." (Panel.humanizeAction v) = false
  /\ Panel.humanizeAction (Panel.humanizeAction v) = Panel.humanizeAction v
  /\ JsString.includes "_" (SimplePanel.action_title v) = false
  /\ SimplePanel.action_title (SimplePanel.action_title v) = SimplePanel.action_title v
  /\ String.length (SimplePanel.action_title v) = String.length v.
Proof.
  pose proof (humanizeAction_chars v) as Hclean.
  assert (chars_all (fun c => negb (Ascii.eqb c "_")) (Panel.humanizeAction v) = true)
    as Hund.
  { eapply chars_all_impl; [|exact Hclean]. by intros c [? _]%andb_true_iff. }
  assert (chars_all (fun c => negb (Ascii.eqb c ".")) (Panel.humanizeAction v) = true)
    as Hdot.
  { eapply chars_all_impl; [|exact Hclean]. by intros c [_ ?]%andb_true_iff. }
  assert (chars_all (fun c => negb (Ascii.eqb c "_")) (SimplePanel.action_title v) = true)
    as Hsimple.
  { apply replace_underscores_clean. }
  repeat apply conj.
  - by rewrite includes_char, Hund.
  - by rewrite includes_char, Hdot.
  - unfold Panel.humanizeAction at 1. rewrite (split_no_sep _ _ Hdot).
    cbn [List.map JsString.join]. rewrite (replace_underscores_fixed _ Hund).
    unfold JsString.capitalize_words, Panel.humanizeAction.
    rewrite <- (List.map_map JsString.replace_underscores (JsString.capitalize_from false)).
    apply capitalize_join.
  - by rewrite includes_char, Hsimple.
  - by apply replace_underscores_fixed.
  - apply replace_underscores_length.
Qed.

End Titles.

(** ** The formatters *)

Section FormatterFacts.
Context `{Display}.

(** X29. [formatTimestamp] never shows an empty text when the locale never
    prints one: a missing or empty value shows as a dash, and a value that
    does not parse as a date shows as it is. *)
Theorem formatTimestamp_never_blank (value : option string)
    (Hlocale : forall time, Date_toLocaleString time <> "") :
  formatTimestamp value <> ""
  /\ (forall v, value = Some v -> v <> "" -> Date_getTime v = None ->
        formatTimestamp value = v)
  /\ (value = None \/ value = Some "" -> formatTimestamp value = "—").
Proof.
  split; [|split].
  - destruct value as [[|c v]|]; [done| |done].
    unfold formatTimestamp. cbn [JsString.truthy negb].
    destruct (Date_getTime (String c v)); [apply Hlocale|done].
  - intros v -> Hv Hparse. unfold formatTimestamp.
    by rewrite (truthy_nonempty _ Hv), Hparse.
  - by intros [-> | ->].
Qed.

(** X30. When a confidence that is at least 90 is also at least 80, the
    badge is ["success"] exactly from 90 up, ["accent"] exactly from 80 up
    to 90, and ["warning"] exactly below 80; a confidence that compares false
    with every number gets ["warning"]. *)
Theorem confidenceVariant_thresholds (confidence : number)
    (Hmono : Number_ge confidence 90 = true -> Number_ge confidence 80 = true) :
  (confidenceVariant confidence = "success" <-> Number_ge confidence 90 = true)
  /\ (confidenceVariant confidence = "accent"
      <-> Number_ge confidence 80 = true /\ Number_ge confidence 90 = false)
  /\ (confidenceVariant confidence = "warning" <-> Number_ge confidence 80 = false).
Proof.
  unfold confidenceVariant.
  destruct (Number_ge confidence 90) eqn:H90.
  - rewrite (Hmono eq_refl). repeat split; try done; by intros [? ?].
  - destruct (Number_ge confidence 80); repeat split; try done; by intros [? ?].
Qed.

End FormatterFacts.

(** ** Runs on the sample board *)

Section OnSamples.
#[local] Existing Instance Reference.platform.

(** The scenario of the specification on the sample board: [a] and [c] are
    pending, the others resolved, each partition most recent first. *)
Example sample_partitions :
  Panel.sortedApprovals Samples.board
  = {| Panel.pending := [Samples.c; Samples.a; Samples.d];
       Panel.resolved := [Samples.e; Samples.b] |}.
Proof. reflexivity. Qed.

Example sample_summary :
  Panel.rows (Panel.approvalSummary Samples.c)
  = [ {| Panel.label := "Task"; Panel.value := "T-7" |};
      {| Panel.label := "Assignee"; Panel.value := "12" |};
      {| Panel.label := "Role"; Panel.value := "reviewer" |} ].
Proof. reflexivity. Qed.

(** The witness of C3: the server approves [a]; the first entry of the
    collection is replaced and the four others stay. *)
Lemma decision_replaces_target_witness :
  let after :=
    (Panel.handleDecision Samples.props Samples.signed_in Samples.server_approves
       "a" approved Samples.machine).2 in
  internalApprovals (panel after)
  = [Samples.a_approved; Samples.b; Samples.c; Samples.d; Samples.e]
  /\ replaces_only "a" Samples.a_approved Samples.board (internalApprovals (panel after)).
Proof.
  split; [reflexivity|].
  refine (proj1 (decision_replaces_target Samples.props Samples.signed_in
                   Samples.server_approves "a" approved Samples.machine
                   (Some "tok") _ Samples.a_approved eq_refl _ eq_refl eq_refl
                   eq_refl eq_refl) eq_refl eq_refl).
  discriminate.
Defined.

(** The witness of C4: the server answers 500 to the fetch, and the network
    is down at another fetch; the board stays, the first error is the fixed
    text and the second the message of the failure. *)
Lemma failed_fetch_keeps_collection_witness :
  let after :=
    (Panel.loadApprovals Samples.props Samples.signed_in Samples.server_error
       Samples.machine).2 in
  let after_down :=
    (Panel.loadApprovals Samples.props Samples.signed_in Samples.network_down
       Samples.machine).2 in
  (request_fails Samples.signed_in (Samples.server_error (B := list Approval))
     (load_request Samples.props)
     "Unable to load approvals." (ThrownError "Unable to load approvals.")
   /\ internalApprovals (panel after) = Samples.board
   /\ error (panel after) = Some "Unable to load approvals.")
  /\ (request_fails Samples.signed_in (Samples.network_down (B := list Approval))
        (load_request Samples.props)
        "Unable to load approvals." (ThrownError "Failed to fetch")
      /\ internalApprovals (panel after_down) = Samples.board
      /\ error (panel after_down) = Some "Failed to fetch").
Proof.
  assert (request_fails Samples.signed_in
            (Samples.server_error (B := list Approval)) (load_request Samples.props)
            "Unable to load approvals." (ThrownError "Unable to load approvals."))
    as Hfails.
  { eapply response_not_ok; reflexivity. }
  assert (request_fails Samples.signed_in
            (Samples.network_down (B := list Approval)) (load_request Samples.props)
            "Unable to load approvals." (ThrownError "Failed to fetch"))
    as Hdown.
  { eapply fetch_throws; reflexivity. }
  split.
  - split; [exact Hfails|].
    destruct (failed_fetch_keeps_collection Samples.props Samples.signed_in
                Samples.server_error Samples.machine _ eq_refl
                ltac:(discriminate) Hfails) as [Hpanel _].
    destruct (Hpanel eq_refl) as (Hkeep & _ & Hnot_ok & _).
    split; [exact Hkeep|].
    exact (Hnot_ok (Some "tok") _ eq_refl eq_refl eq_refl).
  - split; [exact Hdown|].
    destruct (failed_fetch_keeps_collection Samples.props Samples.signed_in
                Samples.network_down Samples.machine _ eq_refl
                ltac:(discriminate) Hdown) as [Hpanel _].
    destruct (Hpanel eq_refl) as (Hkeep & _ & _ & Hmessage & _).
    split; [exact Hkeep|].
    exact (Hmessage "Failed to fetch" eq_refl).
Defined.

(** The witness of C5: the server answers 500 to the decision on [a]. *)
Lemma failed_decision_keeps_state_witness :
  let after :=
    (Panel.handleDecision Samples.props Samples.signed_in Samples.server_error
       "a" rejected Samples.machine).2 in
  updatingId (panel after) = None
  /\ error (panel after) = Some "Unable to update approval."
  /\ internalApprovals (panel after) = Samples.board.
Proof.
  destruct (failed_decision_keeps_state Samples.props Samples.signed_in
              Samples.server_error "a" rejected Samples.machine eq_refl
              ltac:(discriminate)) as [Hpanel _].
  destruct (Hpanel eq_refl eq_refl) as [Hmarker Hfail].
  split; [exact Hmarker|].
  exact (Hfail (Some "tok") _ eq_refl eq_refl eq_refl).
Defined.

(** The witness of C7: the summary of [c], an assignment with a task id, a
    role, an assignee number and a title that is an object, and the summary
    of [g], a reassignment with a numeric task id under the third spelling,
    a title, a reason and an empty role. *)
Lemma assignment_summary_rows_witness :
  (JsString.includes "assign" (action_type Samples.c) = true
   /\ Panel.taskId (Panel.approvalSummary Samples.c) = Some "T-7"
   /\ Panel.reason (Panel.approvalSummary Samples.c) = None
   /\ Panel.rows (Panel.approvalSummary Samples.c)
      = [ {| Panel.label := "Task"; Panel.value := "T-7" |};
          {| Panel.label := "Assignee"; Panel.value := "12" |};
          {| Panel.label := "Role"; Panel.value := "reviewer" |} ]
   /\ present_under Samples.c ["task_id"; "taskId"; "taskID"] "T-7"
   /\ forall text, ~ present_under Samples.c ["title"] text)
  /\ (JsString.includes "assign" (action_type MoreSamples.g) = true
      /\ Panel.taskId (Panel.approvalSummary MoreSamples.g) = Some "7"
      /\ Panel.reason (Panel.approvalSummary MoreSamples.g) = Some "On call this week"
      /\ Panel.rows (Panel.approvalSummary MoreSamples.g)
         = [ {| Panel.label := "Task"; Panel.value := "7" |};
             {| Panel.label := "Assignee"; Panel.value := "agent-3" |};
             {| Panel.label := "Title"; Panel.value := "Fix the build" |} ]
      /\ present_under MoreSamples.g ["reason"] "On call this week").
Proof.
  split.
  - destruct (assignment_summary_rows Samples.c eq_refl)
      as ((Htask & Hreason & Hrows & Hpresent & Habsent) & _).
    split; [reflexivity|].
    split; [exact (eq_trans Htask eq_refl)|].
    split; [exact (eq_trans Hreason eq_refl)|].
    split; [exact (eq_trans Hrows eq_refl)|].
    split; [exact (Hpresent ["task_id"; "taskId"; "taskID"] "T-7" eq_refl)
          |exact (Habsent ["title"] eq_refl)].
  - destruct (assignment_summary_rows MoreSamples.g eq_refl)
      as ((Htask & Hreason & Hrows & Hpresent & _) & _).
    split; [reflexivity|].
    split; [exact (eq_trans Htask eq_refl)|].
    split; [exact (eq_trans Hreason eq_refl)|].
    split; [exact (eq_trans Hrows eq_refl)|].
    exact (Hpresent ["reason"] "On call this week" eq_refl).
Defined.

(** The counterexample to C7 as stated: [a] is an assignment without a
    payload, and its summary has the row Assignee: Unassigned. *)
Lemma unassigned_row_without_payload :
  JsString.includes "assign" (action_type Samples.a) = true
  /\ payload Samples.a = None
  /\ Panel.rows (Panel.approvalSummary Samples.a)
     = [ {| Panel.label := "Assignee"; Panel.value := "Unassigned" |} ]
  /\ ~ rows_only_present Samples.a.
Proof.
  split; [reflexivity|]. split; [reflexivity|]. split; [reflexivity|].
  intros Hall.
  destruct (Hall {| Panel.label := "Assignee"; Panel.value := "Unassigned" |})
    as (key & fields & v & _ & Hp & _).
  - apply list_elem_of_here.
  - discriminate Hp.
Qed.

(** The witness of C8: the session is signed out. *)
Lemma closed_guard_is_noop_witness :
  isSignedIn Samples.signed_out = false
  /\ Panel.loadApprovals Samples.props Samples.signed_out Samples.server_error
       Samples.machine = (Returned tt, Samples.machine)
  /\ Panel.handleDecision Samples.props Samples.signed_out Samples.server_approves
       "a" approved Samples.machine = (Returned tt, Samples.machine).
Proof.
  split; [reflexivity|].
  destruct (closed_guard_is_noop Samples.props Samples.signed_out
              Samples.server_error Samples.server_approves "a" approved
              Samples.machine (or_introl eq_refl))
    as (Hload & _ & _ & Hdecide & _).
  split; [exact Hload|exact (Hdecide eq_refl)].
Defined.

(** The witness of C9: the host supplies a handler. *)
Lemma external_handler_takes_over_witness :
  let run :=
    Panel.handleDecision Samples.delegating_props Samples.signed_in
      Samples.server_approves "a" approved Samples.machine in
  Panel.onDecision Samples.delegating_props = Some Samples.host_handler
  /\ panel run.2 = Samples.state
  /\ trace run.2 = [Delegated "a" approved].
Proof.
  split; [reflexivity|].
  destruct (external_handler_takes_over Samples.delegating_props Samples.signed_in
              Samples.server_approves "a" approved Samples.machine
              Samples.host_handler eq_refl) as (_ & Hpanel & Htrace & _).
  split; [exact Hpanel|exact Htrace].
Defined.

(** C10 on the payload of [c]: the title is an object and is not read, the
    assignee number is read as its decimal text. *)
Lemma payloadValue_only_scalars_witness :
  Panel.payloadValue (payload Samples.c) "title" = None
  /\ Panel.payloadValue (payload Samples.c) "assignedAgentId" = Some "12".
Proof.
  destruct payloadValue_only_scalars as (_ & _ & Hother & _ & Hnum & _).
  split.
  - apply (Hother _ "title" (JObj [])); [reflexivity|discriminate|discriminate].
  - apply (Hnum _ "assignedAgentId" 12). reflexivity.
Defined.

End OnSamples.

(** ** More runs on the sample board *)

Section OnSamplesMore.
#[local] Existing Instance Reference.platform.
#[local] Existing Instance ReferenceDisplay.display.

Lemma reference_locale_never_blank (time : Z) : Date_toLocaleString time <> "".
Proof.
  cbn [Date_toLocaleString ReferenceDisplay.display].
  unfold ReferenceDisplay.toLocaleString.
  destruct (ReferenceDisplay.civil_from_days _) as [m d].
  by destruct (ReferenceDisplay.month_name m).
Qed.

Example sample_timestamps :
  formatTimestamp (Some "2024-01-06T09:05:00Z") = "Jan 6, 09:05 AM"
  /\ formatTimestamp (Some "2024-02-29T13:30:00Z") = "Feb 29, 01:30 PM"
  /\ formatTimestamp (Some "yesterday") = "yesterday"
  /\ formatTimestamp None = "—".
Proof. repeat split; reflexivity. Qed.

Example sample_view_buttons :
  actionable (PanelView.render Samples.props (panel MoreSamples.stale_machine))
  = [("c", false); ("a", true); ("d", false)].
Proof. reflexivity. Qed.

Lemma sortedApprovals_idempotent_witness :
  Panel.sortedApprovals [Samples.a; Samples.b; Samples.c; Samples.e]
  = {| Panel.pending := [Samples.c; Samples.a];
       Panel.resolved := [Samples.e; Samples.b] |}
  /\ Panel.sortedApprovals [Samples.c; Samples.a; Samples.e; Samples.b]
     = {| Panel.pending := [Samples.c; Samples.a];
          Panel.resolved := [Samples.e; Samples.b] |}.
Proof.
  split; [reflexivity|].
  refine (proj1 (proj2 (sortedApprovals_idempotent
                          [Samples.a; Samples.b; Samples.c; Samples.e] _))).
  repeat (apply Forall_cons; split; [by eexists|]). apply Forall_nil_2.
Defined.

Lemma sortByTime_stable_witness :
  Panel.sortByTime [Samples.a; Samples.c; Samples.b; MoreSamples.c_rejected]
  = [Samples.c; MoreSamples.c_rejected; Samples.b; Samples.a]
  /\ List.filter
       (fun a => bool_decide (Date_getTime (created_at a) = Some 1704240000000))
       (Panel.sortByTime [Samples.a; Samples.c; Samples.b; MoreSamples.c_rejected])
     = [Samples.c; MoreSamples.c_rejected].
Proof.
  split; [reflexivity|].
  refine (eq_trans
            (sortByTime_stable
               [Samples.a; Samples.c; Samples.b; MoreSamples.c_rejected]
               1704240000000 _) eq_refl).
  repeat (apply Forall_cons; split; [by eexists|]). apply Forall_nil_2.
Defined.

Lemma sortByTime_descending_witness :
  Panel.sortByTime [Samples.a; Samples.b; Samples.c; Samples.e]
  = [Samples.e; Samples.c; Samples.b; Samples.a]
  /\ 1704067200000 <= 1704412800000.
Proof.
  split; [reflexivity|].
  apply (sortByTime_descending [Samples.a; Samples.b; Samples.c; Samples.e] 0 3
           Samples.e Samples.a 1704412800000 1704067200000).
  - repeat (apply Forall_cons; split; [by eexists|]). apply Forall_nil_2.
  - lia.
  - reflexivity.
  - reflexivity.
  - reflexivity.
  - reflexivity.
Defined.


Lemma calls_send_one_request_witness :
  self_managed Samples.props Samples.signed_in
  /\ trace (Panel.handleDecision Samples.props Samples.signed_in
              MoreSamples.server_decides "c" rejected Samples.machine).2
     = [NetworkRequest
          (PATCH "https://mission-control.example/api/v1/boards/board-1/approvals/c"
             "Bearer tok" rejected)].
Proof.
  assert (self_managed Samples.props Samples.signed_in) as Hown by (by repeat split).
  split; [exact Hown|].
  exact (proj2 (proj2 (proj2 (calls_send_one_request Samples.props Samples.signed_in
                                MoreSamples.server_lists MoreSamples.server_decides
                                "c" rejected Samples.machine))
                  (Some "tok") Hown eq_refl)).
Defined.



Lemma decision_on_unknown_id_witness :
  internalApprovals
    (panel (Panel.handleDecision Samples.props Samples.signed_in Samples.server_approves
              "z" approved Samples.machine).2) = Samples.board.
Proof.
  refine (proj1 (decision_on_unknown_id Samples.props (simple_of Samples.props)
                   Samples.signed_in Samples.server_approves "z" approved
                   Samples.machine _)).
  repeat (apply Forall_cons; split; [discriminate|]). apply Forall_nil_2.
Defined.

Lemma decision_keeps_ids_witness :
  id <$> internalApprovals
           (panel (Panel.handleDecision Samples.props Samples.signed_in
                     MoreSamples.server_decides "a" approved Samples.machine).2)
  = ["a"; "b"; "c"; "d"; "e"].
Proof.
  refine (proj1 (decision_keeps_ids Samples.props Samples.signed_in
                   MoreSamples.server_decides "a" approved Samples.machine _)).
  intros updated [= <-]. reflexivity.
Defined.

Lemma decisions_commute_witness :
  internalApprovals
    (panel (Panel.handleDecision Samples.props Samples.signed_in
              MoreSamples.server_decides "c" rejected
              (Panel.handleDecision Samples.props Samples.signed_in
                 MoreSamples.server_decides "a" approved Samples.machine).2).2)
  = [Samples.a_approved; Samples.b; MoreSamples.c_rejected; Samples.d; Samples.e]
  /\ internalApprovals
       (panel (Panel.handleDecision Samples.props Samples.signed_in
                 MoreSamples.server_decides "c" rejected
                 (Panel.handleDecision Samples.props Samples.signed_in
                    MoreSamples.server_decides "a" approved Samples.machine).2).2)
     = internalApprovals
         (panel (Panel.handleDecision Samples.props Samples.signed_in
                   MoreSamples.server_decides "a" approved
                   (Panel.handleDecision Samples.props Samples.signed_in
                      MoreSamples.server_decides "c" rejected Samples.machine).2).2).
Proof.
  split; [reflexivity|].
  apply (decisions_commute Samples.props Samples.signed_in MoreSamples.server_decides
           "a" "c" approved rejected Samples.machine).
  - discriminate.
  - intros updated [= <-]. reflexivity.
  - intros updated [= <-]. reflexivity.
Defined.

Lemma polling_keeps_last_success_witness :
  internalApprovals
    (panel (Polling.ticks Samples.props
              [(Samples.signed_in, Samples.server_error);
               (MoreSamples.silent_failure, MoreSamples.server_lists)]
              Samples.machine)) = Samples.board.
Proof.
  refine (proj1 (polling_keeps_last_success Samples.props
                   [(Samples.signed_in, Samples.server_error);
                    (MoreSamples.silent_failure, MoreSamples.server_lists)]
                   Samples.machine) _).
  apply Forall_cons; split.
  - eexists. eapply response_not_ok; reflexivity.
  - apply Forall_cons; split; [|apply Forall_nil_2].
    eexists. eapply token_throws. reflexivity.
Defined.


Lemma rendered_keys_distinct_witness :
  NoDup (PanelView.key <$> cards_of (PanelView.render Samples.props Samples.state)).
Proof.
  assert (NoDup (id <$> Samples.board)) as Hids.
  { repeat (apply NoDup_cons_2;
            [rewrite ?not_elem_of_cons; repeat split;
             try discriminate; apply not_elem_of_nil|]).
    apply NoDup_nil_2. }
  exact (proj1 (rendered_keys_distinct Samples.props Samples.state Hids Hids)).
Defined.

Lemma failure_banner_witness :
  let after :=
    panel (Panel.loadApprovals Samples.props MoreSamples.silent_failure
             MoreSamples.server_lists Samples.machine).2 in
  error after = Some ""
  /\ PanelView.banner (PanelView.render Samples.props after) = None.
Proof.
  assert (request_fails MoreSamples.silent_failure MoreSamples.server_lists
            (load_request Samples.props) "Unable to load approvals." (ThrownError ""))
    as Hfails by (by apply token_throws).
  destruct (proj2 (failure_banner Samples.props MoreSamples.silent_failure
                     MoreSamples.server_lists Samples.machine (ThrownError "")
                     eq_refl eq_refl ltac:(discriminate) Hfails) eq_refl)
    as (Herror & Hbanner & _).
  split; [exact Herror|exact Hbanner].
Defined.

Lemma no_button_disabled_after_decision_witness :
  self_managed Samples.props Samples.signed_in
  /\ forall entry,
       entry ∈ actionable
                 (PanelView.render Samples.props
                    (panel (Panel.handleDecision Samples.props Samples.signed_in
                              Samples.server_error "a" approved
                              MoreSamples.stale_machine).2)) ->
       entry.2 = false.
Proof.
  assert (self_managed Samples.props Samples.signed_in) as Hown by (by repeat split).
  split; [exact Hown|].
  exact (proj1 (no_button_disabled_after_decision Samples.props Samples.signed_in
                  Samples.server_error "a" approved MoreSamples.stale_machine Hown)).
Defined.

Lemma other_summary_rows_present_witness :
  Panel.rows (Panel.approvalSummary MoreSamples.f)
  = [ {| Panel.label := "Task"; Panel.value := "T-9" |};
      {| Panel.label := "Title"; Panel.value := "Fix the build" |} ]
  /\ rows_only_present MoreSamples.f.
Proof.
  split; [reflexivity|].
  exact (proj1 (other_summary_rows_present MoreSamples.f eq_refl)).
Defined.

Lemma summary_without_payload_witness :
  payload Samples.a = None
  /\ Panel.rows (Panel.approvalSummary Samples.a)
     = [ {| Panel.label := "Assignee"; Panel.value := "Unassigned" |} ].
Proof.
  split; [reflexivity|].
  exact (proj2 (proj2 (summary_without_payload Samples.a (or_introl eq_refl)))).
Defined.

Lemma first_spelling_wins_witness :
  Panel.taskId (Panel.approvalSummary MoreSamples.f) = Some "T-9"
  /\ {| Panel.label := "Assignee"; Panel.value := "12" |}
     ∈ Panel.rows (Panel.approvalSummary Samples.c).
Proof.
  split.
  - exact (proj1 (first_spelling_wins MoreSamples.f)).
  - exact (proj2 (first_spelling_wins Samples.c) eq_refl).
Defined.

Lemma effect_sets_one_interval_witness :
  let run :=
    Polling.panel_effect Samples.props Samples.signed_in MoreSamples.server_lists
      (Samples.machine, MoreSamples.timers) in
  run.1 = Some 4%nat
  /\ Polling.intervals run.2.2 = <[4%nat := 15000]> {[ 2%nat := 250 ]}.
Proof.
  refine (proj1 (effect_sets_one_interval Samples.props Samples.signed_in
                   MoreSamples.server_lists Samples.machine MoreSamples.timers) _).
  by repeat split.
Defined.

Lemma effect_cleanup_restores_timers_witness :
  let run :=
    Polling.panel_effect Samples.props Samples.signed_in MoreSamples.server_lists
      (Samples.machine, MoreSamples.timers) in
  Polling.intervals MoreSamples.timers !! Polling.next_timer MoreSamples.timers = None
  /\ Polling.intervals (Polling.cleanup run.1 run.2.2) = {[ 2%nat := 250 ]}.
Proof.
  split; [reflexivity|].
  exact (proj1 (effect_cleanup_restores_timers Samples.props Samples.signed_in
                  MoreSamples.server_lists Samples.machine MoreSamples.timers eq_refl)).
Defined.

Lemma humanizeAction_by_parts_witness :
  Panel.humanizeAction "assign_role"
  = JsString.capitalize_words (SimplePanel.action_title "assign_role").
Proof.
  exact (proj2 (humanizeAction_by_parts "assign_role" "") eq_refl).
Defined.

Lemma formatTimestamp_never_blank_witness :
  formatTimestamp (Some "2024-01-06T09:05:00Z") <> ""
  /\ formatTimestamp (Some "yesterday") = "yesterday".
Proof.
  split.
  - exact (proj1 (formatTimestamp_never_blank (Some "2024-01-06T09:05:00Z")
                    reference_locale_never_blank)).
  - refine (proj1 (proj2 (formatTimestamp_never_blank (Some "yesterday")
                            reference_locale_never_blank))
              "yesterday" eq_refl _ eq_refl).
    discriminate.
Defined.

Lemma confidenceVariant_thresholds_witness :
  confidenceVariant (confidence Samples.a) = "success"
  /\ confidenceVariant (85 : number) = "accent".
Proof.
  assert (forall n : number, Number_ge n 90 = true -> Number_ge n 80 = true) as Hmono.
  { intros n Hn. apply Z.leb_le. apply Z.leb_le in Hn. lia. }
  split.
  - apply (proj1 (confidenceVariant_thresholds (confidence Samples.a) (Hmono _))).
    reflexivity.
  - apply (proj1 (proj2 (confidenceVariant_thresholds _ (Hmono _)))).
    by split.
Defined.

End OnSamplesMore.
